(** * apitess: the /parallels/ endpoints

    A shallow embedding of [src/apitess/parallels.py] and the properties of
    its three request handlers: [submit_search], [retrieve_status] and
    [retrieve_results].

    The handlers are Python functions running inside Flask.  They are
    modelled as functions in an exception monad ([result]); the only state
    a handler changes is the bounded job queue, which is threaded
    explicitly.  Everything the handlers reach through the ambient request
    context (the Store, the BSON identifier constructor, the order in which
    a Python set is iterated, the text codecs) is gathered in the record
    [Env]. *)

From Stdlib Require Import ZArith NArith Ascii String DecimalString.
From stdpp Require Import base strings list gmap.

Open Scope string_scope.
Open Scope list_scope.

#[local] Set Warnings "-register-all".

(** ** Python values and the exception monad *)

Module Py.

(** The values a decoded JSON document is made of.  A JSON object is a
    finite map from its keys, which is all the handlers use of a [dict];
    floating point numbers are left out. *)
Inductive pyval : Type :=
| PNone
| PBool (b : bool)
| PInt (z : Z)
| PStr (s : string)
| PList (l : list pyval)
| PDict (d : gmap string pyval).

(** The exceptions that can leave a handler.  [Full] is [queue.Full]. *)
Inductive exn : Type :=
| KeyError (key : pyval)
| TypeError
| AttributeError (name : string)
| InvalidId
| Full.

Inductive result (A : Type) : Type :=
| Ok (a : A)
| Raise (e : exn).

Arguments Ok {A} a.
Arguments Raise {A} e.

Definition bind {A B : Type} (m : result A) (k : A -> result B) : result B :=
  match m with
  | Ok a => k a
  | Raise e => Raise e
  end.

End Py.

Export Py.

Notation "'let*' x ':=' m 'in' k" := (bind m (fun x => k))
  (at level 10, x name, m at level 100, k at level 200).

(** *** Strings *)

Definition LF : string := String (ascii_of_nat 10) "".
Definition TAB : string := String (ascii_of_nat 9) "".

(** [needle in hay] for two strings. *)
Fixpoint str_contains (needle hay : string) : bool :=
  String.prefix needle hay ||
  match hay with
  | EmptyString => false
  | String _ rest => str_contains needle rest
  end.

Definition starts_with (p s : string) : bool := String.prefix p s.

Fixpoint ends_with_slash (s : string) : bool :=
  match s with
  | EmptyString => false
  | String c EmptyString => bool_decide (c = "/"%char)
  | String _ rest => ends_with_slash rest
  end.

(** *** Dictionaries and the operators [in] and [[]] *)

Definition is_str (k : string) (v : pyval) : bool :=
  match v with
  | PStr s => String.eqb k s
  | _ => false
  end.

(** [k in v] for a string [k]: key membership on a dictionary, element
    membership on a list, substring test on a string, [TypeError] on
    anything else. *)
Definition py_in (k : string) (v : pyval) : result bool :=
  match v with
  | PDict d => Ok (bool_decide (is_Some (d !! k)))
  | PList l => Ok (existsb (is_str k) l)
  | PStr s => Ok (str_contains k s)
  | PNone | PBool _ | PInt _ => Raise TypeError
  end.

(** [v[k]] for a string [k]: only a dictionary can be indexed by a string. *)
Definition py_getitem (v : pyval) (k : string) : result pyval :=
  match v with
  | PDict d =>
      match d !! k with
      | Some x => Ok x
      | None => Raise (KeyError (PStr k))
      end
  | _ => Raise TypeError
  end.

(** [sep.join(items)]: every item has to be a string. *)
Fixpoint all_strs (items : list pyval) : option (list string) :=
  match items with
  | [] => Some []
  | PStr s :: rest =>
      match all_strs rest with
      | Some l => Some (s :: l)
      | None => None
      end
  | _ :: _ => None
  end.

Definition py_join (sep : string) (items : list pyval) : result string :=
  match all_strs items with
  | Some l => Ok (String.concat sep l)
  | None => Raise TypeError
  end.

(** The loop
<<
    missing = []
    for req in requireds:
        if req not in container:
            missing.append(req)
>>
    with [requireds] given in the order the set is iterated. *)
Fixpoint collect_missing (requireds : list string) (container : pyval)
    (missing : list string) : result (list string) :=
  match requireds with
  | [] => Ok missing
  | req :: rest =>
      let* present := py_in req container in
      collect_missing rest container
        (if present then missing else missing ++ [req])
  end.

(** [posixpath.join(a, *p)]. *)
Fixpoint os_path_join (a : string) (p : list string) : string :=
  match p with
  | [] => a
  | b :: rest =>
      os_path_join
        (if starts_with "/" b then b
         else if bool_decide (a = "") || ends_with_slash a then a +:+ b
         else a +:+ "/" +:+ b)
        rest
  end.

(** ** Identifiers *)

(** *** [uuid.uuid4().hex] *)

Definition hex_digit (n : N) : ascii :=
  match n with
  | 0 => "0" | 1 => "1" | 2 => "2" | 3 => "3" | 4 => "4" | 5 => "5"
  | 6 => "6" | 7 => "7" | 8 => "8" | 9 => "9" | 10 => "a" | 11 => "b"
  | 12 => "c" | 13 => "d" | 14 => "e" | _ => "f"
  end%N%char.

(** The [digits] lowest hexadecimal digits of [x], most significant first. *)
Fixpoint hex_digits (digits : nat) (x : N) (acc : string) : string :=
  match digits with
  | O => acc
  | S n => hex_digits n (x / 16) (String (hex_digit (x mod 16)) acc)
  end.

(** [UUID(bytes=os.urandom(16), version=4).int]: [rnd] is the integer read
    from the sixteen random bytes; the variant and version bits are then
    forced. *)
Definition uuid4_int (rnd : N) : N :=
  let i := (rnd mod 2 ^ 128)%N in
  let i := N.ldiff i (N.shiftl 0xc000 48) in
  let i := N.lor i (N.shiftl 0x8000 48) in
  let i := N.ldiff i (N.shiftl 0xf000 64) in
  N.lor i (N.shiftl 4 76).

(** ['%032x' % int] *)
Definition uuid4_hex (rnd : N) : string := hex_digits 32 (uuid4_int rnd) "".

(** *** BSON object identifiers *)

(** A twelve-byte [ObjectId], as the integer its bytes spell. *)
Definition oid : Type := N.

(** [str(oid)]: the twenty-four lowercase hexadecimal digits. *)
Definition oid_str (o : oid) : string := hex_digits 24 o "".

(** ** The records of the Store *)

Record Text : Type := mkText {
  text_id : oid;
  text_title : string
}.

Record ResultsStatus : Type := mkResultsStatus {
  rs_results_id : pyval;
  rs_status : pyval;
  rs_msg : pyval;
  rs_match_set_id : option oid
}.

Record MatchSet : Type := mkMatchSet {
  ms_id : oid;
  ms_parameters : pyval
}.

Record Match : Type := mkMatch {
  match_match_set : oid;
  match_fields : gmap string pyval
}.

(** ** Responses *)

Inductive body : Type :=
| BodyEmpty
| BodyText (s : string)
| BodyJson (v : pyval)
| BodyBytes (b : list N).

Record response : Type := mkResponse {
  status_code : Z;
  mimetype : string;
  headers : list (string * string);
  data : body
}.

(** [flask.jsonify] called with keyword arguments: a 200 response
    carrying them as a JSON object. *)
Definition jsonify (kwargs : gmap string pyval) : response :=
  {| status_code := 200;
     mimetype := "application/json";
     headers := [];
     data := BodyJson (PDict kwargs) |}.

(** Modelled from the spec: [apitess.errors.error] is defined in
    [apitess/errors.py], which is not part of the sources at hand.  A
    validation failure is answered with the given status and the body
    [{data: echoed request, message: joined error list}]. *)
Definition error (status : Z) (data : pyval) (message : string) : response :=
  {| status_code := status;
     mimetype := "application/json";
     headers := [];
     data :=
       BodyJson (PDict {[ "data" := data; "message" := PStr message ]}) |}.

(** The message carried by an error response. *)
Definition message_of (r : response) : option string :=
  match data r with
  | BodyJson (PDict d) =>
      match d !! "message" with
      | Some (PStr m) => Some m
      | _ => None
      end
  | _ => None
  end.

(** ** The environment of a request

    What the handlers obtain from outside this module.  None of it is
    defined in [parallels.py]; a handler only calls it. *)

Record Env : Type := mkEnv {
  (** [ObjectId(s)] for a string [s]: [None] stands for [InvalidId]. *)
  oid_parse : string -> option oid;
  (** [ObjectId()]: the identifier generated when the argument is
      [None]. *)
  oid_generate : oid;
  (** [flask.g.db.find(Text.collection, _id=[...])] *)
  find_texts : list oid -> list Text;
  (** [flask.g.db.find(ResultsStatus.collection, results_id=...)] *)
  find_status : string -> list ResultsStatus;
  (** [flask.g.db.find(MatchSet.collection, _id=...)] *)
  find_match_sets : oid -> list MatchSet;
  (** [flask.g.db.find(Match.collection, match_set=...)] *)
  find_matches : oid -> list Match;
  (** [Match.json_encode] *)
  json_encode : Match -> pyval;
  (** The order in which the set [{'source', 'target', 'method'}] is
      iterated. *)
  requireds_iter : list string;
  (** The order in which the set of keys required by the method
      [original] is iterated. *)
  original_iter : list string;
  (** [str(v)] for a list or a dictionary [v]. *)
  container_str : pyval -> string;
  (** [flask.json.dumps], [str.encode] and [gzip.compress] *)
  json_dumps : pyval -> string;
  str_encode : string -> list N;
  gzip_compress : list N -> list N;
  (** What the attribute [error] of the package [apitess] is bound to, if
      it is bound at all.  The module imports [apitess.errors] and nothing
      else of the package. *)
  apitess_error : option (Z -> pyval -> string -> response)
}.

(** The two sets of [submit_search], as sets. *)
Definition requireds : list string := ["source"; "target"; "method"].

Definition original_requireds : list string :=
  ["name"; "feature"; "stopwords"; "freq_basis"; "max_distance";
   "distance_basis"].

(** ** The job queue *)

(** The dictionary handed to [queue_search]. *)
Record search_params : Type := mkParams {
  texts : list Text;
  unit_type : pyval;
  feature : pyval;
  stopwords : pyval;
  frequency_basis : pyval;
  max_distance : pyval;
  distance_metric : pyval
}.

Record job : Type := mkJob {
  job_results_id : string;
  job_search_type : pyval;
  job_params : search_params
}.

(** A [queue.Queue(maxsize)]: [maxsize = 0] is unbounded. *)
Record jobqueue : Type := mkQueue {
  maxsize : nat;
  items : list job
}.

Definition queue_full (q : jobqueue) : bool :=
  (0 <? maxsize q)%nat && (maxsize q <=? length (items q))%nat.

(** Modelled from the spec: [flask.g.searcher.queue_search] belongs to the
    search engine, whose source is not at hand.  It makes one attempt to
    put the job on the shared bounded queue without blocking; when the
    queue is at capacity it raises [queue.Full] and the queue is left as it
    was. *)
Definition queue_search (q : jobqueue) (results_id : string)
    (search_type : pyval) (params : search_params) : result unit * jobqueue :=
  if queue_full q then (Raise Full, q)
  else (Ok tt,
        {| maxsize := maxsize q;
           items := items q ++ [mkJob results_id search_type params] |}).

(** ** Handlers

    A handler runs against the job queue and either returns or raises; the
    queue it leaves behind is observable in both cases. *)

Definition handler (A : Type) : Type := jobqueue -> result A * jobqueue.

Definition hret {A : Type} (a : A) : handler A := fun q => (Ok a, q).

Definition lift {A : Type} (m : result A) : handler A := fun q => (m, q).

Definition hbind {A B : Type} (m : handler A) (k : A -> handler B)
  : handler B :=
  fun q =>
    match m q with
    | (Ok a, q') => k a q'
    | (Raise e, q') => (Raise e, q')
    end.

Notation "'let!' x ':=' m 'in' k" := (hbind m (fun x => k))
  (at level 10, x name, m at level 100, k at level 200).

(** [try: body except queue.Full: handle] *)
Definition try_except_Full {A : Type} (body : handler A) (handle : handler A)
  : handler A :=
  fun q =>
    match body q with
    | (Raise Full, q') => handle q'
    | other => other
    end.

Definition nonempty {A : Type} (l : list A) : bool :=
  match l with [] => false | _ :: _ => true end.

(** [str(v)], as [str.format] applies it to fill a [{}]. *)
Definition py_str (env : Env) (v : pyval) : string :=
  match v with
  | PNone => "None"
  | PBool true => "True"
  | PBool false => "False"
  | PInt z => NilZero.string_of_int (Z.to_int z)
  | PStr s => s
  | PList _ | PDict _ => container_str env v
  end.

(** [ObjectId(v)]: a string is parsed, [None] asks for a new identifier,
    any other JSON value is a [TypeError]. *)
Definition ObjectId (env : Env) (v : pyval) : result oid :=
  match v with
  | PStr s =>
      match oid_parse env s with
      | Some o => Ok o
      | None => Raise InvalidId
      end
  | PNone => Ok (oid_generate env)
  | PBool _ | PInt _ | PList _ | PDict _ => Raise TypeError
  end.

(** [{str(t.id): t for t in results}] *)
Definition index_texts (found : list Text) : gmap string Text :=
  foldl (fun m t => <[oid_str (text_id t) := t]> m) ∅ found.

(** [key in results] and [results[key]] on that dictionary, whose keys
    are strings: a list or a dictionary cannot be hashed, any other value
    is simply not a key. *)
Definition results_has (results : gmap string Text) (key : pyval)
  : result bool :=
  match key with
  | PStr s => Ok (bool_decide (is_Some (results !! s)))
  | PList _ | PDict _ => Raise TypeError
  | PNone | PBool _ | PInt _ => Ok false
  end.

Definition results_get (results : gmap string Text) (key : pyval)
  : result Text :=
  match key with
  | PStr s =>
      match results !! s with
      | Some t => Ok t
      | None => Raise (KeyError key)
      end
  | PList _ | PDict _ => Raise TypeError
  | PNone | PBool _ | PInt _ => Raise (KeyError key)
  end.

(** The table [method_requireds] of [submit_search] and the subscript
    [method_requireds[name]]. *)
Definition method_requireds (env : Env) : gmap string (list string) :=
  {[ "original" := original_iter env ]}.

Definition method_requireds_get (env : Env) (name : pyval)
  : result (list string) :=
  match name with
  | PStr s =>
      match method_requireds env !! s with
      | Some keys => Ok keys
      | None => Raise (KeyError name)
      end
  | PList _ | PDict _ => Raise TypeError
  | PNone | PBool _ | PInt _ => Raise (KeyError name)
  end.

Definition url_prefix : string := "/parallels".

Definition _validate_units (env : Env) (specs : pyval) (name : string)
  : result (list string) :=
  let result := [] in
  let* has_object_id := py_in "object_id" specs in
  let result :=
    if has_object_id then result
    else result ++ [name +:+ " is missing object_id."] in
  let* has_units := py_in "units" specs in
  if negb has_units then Ok (result ++ [name +:+ " is missing units."])
  else
    let* units := py_getitem specs "units" in
    if negb (is_str "line" units) && negb (is_str "phrase" units)
    then Ok (result ++
             [name +:+ " has unrecognized units: " +:+ py_str env units])
    else Ok result.

Definition msg_missing_keys : string :=
  "The request data payload is missing the following required key(s): ".
Definition msg_unit_errors : string :=
  "The following errors were found in source and target unit specifications:"
  +:+ LF.
Definition msg_unknown_ids : string :=
  "Unable to find the following object_id(s) among the texts in the database:"
  +:+ LF +:+ TAB.
Definition msg_no_name : string := "No specified method name.".
Definition msg_missing_method_keys : string :=
  "The specified method is missing the following required key(s): ".
Definition msg_queue_full : string :=
  "The search request could not be added to the queue. "
  +:+ "Please try again in a few minutes".

(** The response built at lines 110-115. *)
Definition created (results_id : string) : response :=
  {| status_code := 201;
     mimetype := "text/html";
     headers := [("Location", os_path_join url_prefix [results_id; ""])];
     data := BodyEmpty |}.

(** [rnd] is the entropy [uuid.uuid4()] reads. *)
Definition submit_search (env : Env) (received : pyval) (rnd : N)
  : handler response :=
  let! missing := lift (collect_missing (requireds_iter env) received []) in
  if nonempty missing then
    hret (error 400 received (msg_missing_keys +:+ String.concat ", " missing))
  else
  let! source := lift (py_getitem received "source") in
  let! target := lift (py_getitem received "target") in
  let! errors := lift (_validate_units env source "source") in
  let! more := lift (_validate_units env target "target") in
  let errors := errors ++ more in
  if nonempty errors then
    hret (error 400 received
            (msg_unit_errors +:+ String.concat (LF +:+ TAB) errors))
  else
  let! source_object_id := lift (py_getitem source "object_id") in
  let! target_object_id := lift (py_getitem target "object_id") in
  let! source_oid := lift (ObjectId env source_object_id) in
  let! target_oid := lift (ObjectId env target_object_id) in
  let results := index_texts (find_texts env [source_oid; target_oid]) in
  let errors := [] in
  let! source_found := lift (results_has results source_object_id) in
  let errors := if source_found then errors
                else errors ++ [source_object_id] in
  let! target_found := lift (results_has results target_object_id) in
  let errors := if target_found then errors
                else errors ++ [target_object_id] in
  if nonempty errors then
    let! joined := lift (py_join (LF +:+ TAB) errors) in
    hret (error 400 received (msg_unknown_ids +:+ joined))
  else
  let! source_text := lift (results_get results source_object_id) in
  let! target_text := lift (results_get results target_object_id) in
  let! method := lift (py_getitem received "method") in
  let! has_name := lift (py_in "name" method) in
  if negb has_name then hret (error 400 received msg_no_name)
  else
  let! name := lift (py_getitem method "name") in
  let! keys := lift (method_requireds_get env name) in
  let! missing := lift (collect_missing keys method []) in
  if nonempty missing then
    hret (error 400 received
            (msg_missing_method_keys +:+ String.concat ", " missing))
  else
  let results_id := uuid4_hex rnd in
  let response := created results_id in
  let! failed :=
    try_except_Full
      (let! name := lift (py_getitem method "name") in
       let! source := lift (py_getitem received "source") in
       let! units := lift (py_getitem source "units") in
       let! feature := lift (py_getitem method "feature") in
       let! stopwords := lift (py_getitem method "stopwords") in
       let! freq_basis := lift (py_getitem method "freq_basis") in
       let! max_distance := lift (py_getitem method "max_distance") in
       let! distance_basis := lift (py_getitem method "distance_basis") in
       let! _ :=
         (fun q =>
            queue_search q results_id name
              {| texts := [source_text; target_text];
                 unit_type := units;
                 feature := feature;
                 stopwords := stopwords;
                 frequency_basis := freq_basis;
                 max_distance := max_distance;
                 distance_metric := distance_basis |}) in
       hret None)
      (match apitess_error env with
       | Some error_fn => hret (Some (error_fn 500%Z received msg_queue_full))
       | None => lift (Raise (AttributeError "error"))
       end) in
  match failed with
  | Some busy => hret busy
  | None => hret response
  end.

(** [flask.Response(text)] with the status set to 404. *)
Definition not_found (text : string) : response :=
  {| status_code := 404;
     mimetype := "text/html";
     headers := [];
     data := BodyText text |}.

Definition retrieve_status (env : Env) (results_id : string)
  : result response :=
  let results_status_found := find_status env results_id in
  match results_status_found with
  | [] => Ok (not_found "Could not find results_id")
  | status :: _ =>
      Ok (jsonify {[ "results_id" := rs_results_id status;
                     "status" := rs_status status;
                     "message" := rs_msg status ]})
  end.

(** [ObjectId(ref)] for a reference kept in the Store, which is an
    [ObjectId] already or [None]: the first is copied, the second asks for
    a new identifier. *)
Definition ObjectId_of_ref (env : Env) (ref : option oid) : oid :=
  match ref with
  | Some o => o
  | None => oid_generate env
  end.

(** The document [retrieve_results] serialises. *)
Definition results_document (env : Env) (ms : MatchSet) : pyval :=
  let params := ms_parameters ms in
  let matches := find_matches env (ms_id ms) in
  let matches := map (json_encode env) matches in
  PDict {[ "data" := params; "parallels" := PList matches ]}.

Definition retrieve_results (env : Env) (results_id : string)
  : result response :=
  let results_status_found := find_status env results_id in
  match results_status_found with
  | [] => Ok (not_found "Could not find results_id")
  | status :: _ =>
      let match_set_found :=
        find_match_sets env (ObjectId_of_ref env (rs_match_set_id status)) in
      match match_set_found with
      | [] => Ok (not_found "Could not find MatchSet")
      | ms :: _ =>
          Ok {| status_code := 200;
                mimetype := "application/json";
                headers := [("Content-Encoding", "gzip")];
                data :=
                  BodyBytes
                    (gzip_compress env
                       (str_encode env
                          (json_dumps env (results_document env ms)))) |}
      end
  end.

(** ** The receiving side

    What a client does with the body of [retrieve_results]: undo the
    transformation named by the [Content-Encoding] header, decode the
    bytes, parse the JSON text. *)

Record Receiver : Type := mkReceiver {
  gzip_decompress : list N -> option (list N);
  bytes_decode : list N -> option string;
  json_loads : string -> option pyval
}.

Fixpoint header_lookup (name : string) (hs : list (string * string))
  : option string :=
  match hs with
  | [] => None
  | (n, v) :: rest =>
      if String.eqb name n then Some v else header_lookup name rest
  end.

Definition header (name : string) (r : response) : option string :=
  header_lookup name (headers r).

Definition decode_body (rcv : Receiver) (r : response) : option pyval :=
  match data r with
  | BodyBytes b =>
      match header "Content-Encoding" r with
      | Some "gzip" =>
          raw ← gzip_decompress rcv b;
          text ← bytes_decode rcv raw;
          json_loads rcv text
      | _ => None
      end
  | _ => None
  end.

(** ** A concrete environment

    One Store, one identifier parser and one codec, small enough to run the
    handlers on.  The general theorems below hold for every environment;
    this one serves the examples. *)

Module Demo.

(** The value of a hexadecimal digit of either case, from its character
    code. *)
Definition hex_value (c : ascii) : option N :=
  let n := N_of_ascii c in
  if (48 <=? n)%N && (n <=? 57)%N then Some (n - 48)%N
  else if (97 <=? n)%N && (n <=? 102)%N then Some (n - 87)%N
  else if (65 <=? n)%N && (n <=? 70)%N then Some (n - 55)%N
  else None.

Fixpoint parse_hex (s : string) (acc : N) : option N :=
  match s with
  | EmptyString => Some acc
  | String c rest =>
      match hex_value c with
      | Some d => parse_hex rest (acc * 16 + d)%N
      | None => None
      end
  end.

(** An identifier is written as twenty-four hexadecimal digits; anything
    else is refused. *)
Definition parse_oid (s : string) : option oid :=
  if (String.length s =? 24)%nat then parse_hex s 0%N else None.

Definition aeneid : Text := mkText 0x5c6c69f042facf59122418f6%N "aeneid".
Definition pharsalia : Text := mkText 0x5c6c69f042facf59122418f7%N "pharsalia".
Definition library : list Text := [aeneid; pharsalia].

Definition finished : ResultsStatus :=
  mkResultsStatus (PStr "job-done") (PStr "Done") (PStr "Search complete")
    (Some 0x5d00000000000000000000a1%N).
Definition running : ResultsStatus :=
  mkResultsStatus (PStr "job-running") (PStr "Running") (PStr "42%") None.
Definition dangling : ResultsStatus :=
  mkResultsStatus (PStr "job-dangling") (PStr "Done") (PStr "")
    (Some 0x5d00000000000000000000ff%N).

Definition lemma_search : MatchSet :=
  mkMatchSet 0x5d00000000000000000000a1%N
    (PDict {[ "feature" := PStr "lemma" ]}).

Definition match1 : Match :=
  mkMatch 0x5d00000000000000000000a1%N
    {[ "source_tag" := PStr "aen. 1.1"; "score" := PInt 9 ]}.
Definition match2 : Match :=
  mkMatch 0x5d00000000000000000000a1%N
    {[ "source_tag" := PStr "aen. 1.2"; "score" := PInt 7 ]}.
Definition stray : Match :=
  mkMatch 0x5d00000000000000000000b2%N {[ "score" := PInt 1 ]}.

(** *** A codec *)

Definition DQ : ascii := ascii_of_nat 34.
Definition BSL : ascii := ascii_of_nat 92.

Fixpoint escape (s : string) : string :=
  match s with
  | EmptyString => EmptyString
  | String c rest =>
      if bool_decide (c = DQ) || bool_decide (c = BSL)
      then String BSL (String c (escape rest))
      else String c (escape rest)
  end.

Definition quote (s : string) : string :=
  String DQ (escape s) +:+ String DQ "".

Fixpoint dumps (v : pyval) : string :=
  match v with
  | PNone => "null"
  | PBool b => if b then "true" else "false"
  | PInt z => NilZero.string_of_int (Z.to_int z)
  | PStr s => quote s
  | PList l => "[" +:+ String.concat ", " (map dumps l) +:+ "]"
  | PDict d =>
      "{" +:+
      String.concat ", "
        (map_fold (fun k x acc => (quote k +:+ ": " +:+ dumps x) :: acc) [] d)
      +:+ "}"
  end.

(** The text after an opening quote, up to the closing one. *)
Fixpoint read_string (s : string) : option (string * string) :=
  match s with
  | EmptyString => None
  | String c rest =>
      if bool_decide (c = DQ) then Some (EmptyString, rest)
      else if bool_decide (c = BSL) then
        match rest with
        | EmptyString => None
        | String c' rest' =>
            match read_string rest' with
            | Some (t, r) => Some (String c' t, r)
            | None => None
            end
        end
      else
        match read_string rest with
        | Some (t, r) => Some (String c t, r)
        | None => None
        end
  end.

Definition digit_value (c : ascii) : option Z :=
  let n := Z.of_N (N_of_ascii c) in
  if (48 <=? n)%Z && (n <=? 57)%Z then Some (n - 48)%Z else None.

Fixpoint read_digits (s : string) (acc : Z) : Z * string :=
  match s with
  | EmptyString => (acc, s)
  | String c rest =>
      match digit_value c with
      | Some d => read_digits rest (acc * 10 + d)%Z
      | None => (acc, s)
      end
  end.

Definition after (p s : string) : option string :=
  if String.prefix p s
  then Some (String.substring (String.length p)
               (String.length s - String.length p) s)
  else None.

(** A parser for the texts [dumps] writes; [fuel] bounds the number of
    values read. *)
Fixpoint read_value (fuel : nat) (s : string) : option (pyval * string) :=
  match fuel with
  | O => None
  | S n =>
      match s with
      | EmptyString => None
      | String c rest =>
          if bool_decide (c = DQ) then
            match read_string rest with
            | Some (t, r) => Some (PStr t, r)
            | None => None
            end
          else if bool_decide (c = "[")%char then
            match after "]" rest with
            | Some r => Some (PList [], r)
            | None => read_items n rest []
            end
          else if bool_decide (c = "{")%char then
            match after "}" rest with
            | Some r => Some (PDict ∅, r)
            | None => read_members n rest ∅
            end
          else if bool_decide (c = "-")%char then
            let '(z, r) := read_digits rest 0 in Some (PInt (- z), r)
          else
            match after "null" s, after "true" s, after "false" s with
            | Some r, _, _ => Some (PNone, r)
            | _, Some r, _ => Some (PBool true, r)
            | _, _, Some r => Some (PBool false, r)
            | _, _, _ =>
                match digit_value c with
                | Some _ => let '(z, r) := read_digits s 0 in Some (PInt z, r)
                | None => None
                end
            end
      end
  end
with read_items (fuel : nat) (s : string) (acc : list pyval)
  : option (pyval * string) :=
  match fuel with
  | O => None
  | S n =>
      match read_value n s with
      | Some (v, r) =>
          match after "]" r, after ", " r with
          | Some r', _ => Some (PList (acc ++ [v]), r')
          | _, Some r' => read_items n r' (acc ++ [v])
          | _, _ => None
          end
      | None => None
      end
  end
with read_members (fuel : nat) (s : string) (acc : gmap string pyval)
  : option (pyval * string) :=
  match fuel with
  | O => None
  | S n =>
      match s with
      | String c rest =>
          if bool_decide (c = DQ) then
            match read_string rest with
            | Some (k, r) =>
                match after ": " r with
                | Some r' =>
                    match read_value n r' with
                    | Some (v, r'') =>
                        match after "}" r'', after ", " r'' with
                        | Some t, _ => Some (PDict (<[k := v]> acc), t)
                        | _, Some t => read_members n t (<[k := v]> acc)
                        | _, _ => None
                        end
                    | None => None
                    end
                | None => None
                end
            | None => None
            end
          else None
      | EmptyString => None
      end
  end.

Definition loads (s : string) : option pyval :=
  match read_value (String.length s) s with
  | Some (v, EmptyString) => Some v
  | _ => None
  end.

Definition encode (s : string) : list N :=
  map N_of_ascii (list_ascii_of_string s).

Definition decode (b : list N) : option string :=
  Some (string_of_list_ascii (map ascii_of_N b)).

(** A framing in the manner of a gzip member: the magic number, the
    payload as it is, its length in four bytes. *)
Definition le32 (n : N) : list N :=
  [n mod 256; (n / 256) mod 256; (n / 65536) mod 256;
   (n / 16777216) mod 256]%N.

Definition deflate (b : list N) : list N :=
  [0x1f; 0x8b]%N ++ b ++ le32 (N.of_nat (length b)).

Definition inflate (b : list N) : option (list N) :=
  match b with
  | 0x1f%N :: 0x8b%N :: rest =>
      let n := (length rest - 4)%nat in
      let payload := take n rest in
      if bool_decide (drop n rest = le32 (N.of_nat n))
         && (4 <=? length rest)%nat
      then Some payload else None
  | _ => None
  end.

Definition receiver : Receiver :=
  {| gzip_decompress := inflate;
     bytes_decode := decode;
     json_loads := loads |}.

Definition db_find_texts (ids : list oid) : list Text :=
  filter (fun t => text_id t ∈ ids) library.

Definition db_find_status (results_id : string) : list ResultsStatus :=
  filter (fun st => is_str results_id (rs_results_id st))
    [finished; running; dangling].

Definition db_find_match_sets (id : oid) : list MatchSet :=
  filter (fun ms => ms_id ms = id) [lemma_search].

Definition db_find_matches (id : oid) : list Match :=
  filter (fun m => match_match_set m = id) [match1; stray; match2].

Definition env : Env :=
  {| oid_parse := parse_oid;
     oid_generate := 0x5e00000000000000000000c3%N;
     find_texts := db_find_texts;
     find_status := db_find_status;
     find_match_sets := db_find_match_sets;
     find_matches := db_find_matches;
     json_encode := fun m => PDict (match_fields m);
     requireds_iter := ["method"; "source"; "target"];
     original_iter :=
       ["stopwords"; "name"; "distance_basis"; "feature"; "max_distance";
        "freq_basis"];
     container_str := dumps;
     json_dumps := dumps;
     str_encode := encode;
     gzip_compress := deflate;
     apitess_error := None |}.

Definition empty_queue : jobqueue := mkQueue 2 [].

(** *** Payloads *)

Definition unit_spec (id units : string) : pyval :=
  PDict {[ "object_id" := PStr id; "units" := PStr units ]}.

Definition original_method : pyval :=
  PDict {[ "name" := PStr "original"; "feature" := PStr "lemma";
           "stopwords" := PList []; "freq_basis" := PStr "corpus";
           "max_distance" := PInt 10; "distance_basis" := PStr "frequency" ]}.

Definition aeneid_id : string := "5c6c69f042facf59122418f6".
Definition pharsalia_id : string := "5c6c69f042facf59122418f7".
Definition unknown_id : string := "5c6c69f042facf59122418aa".

(** Both texts exist and the method is complete. *)
Definition good : gmap string pyval :=
  {[ "source" := unit_spec aeneid_id "line";
     "target" := unit_spec pharsalia_id "phrase";
     "method" := original_method ]}.

(** As [good], with a method nobody registered. *)
Definition fancy : gmap string pyval :=
  <[ "method" := PDict {[ "name" := PStr "fancy" ]} ]> good.

(** As [good], with a source identifier that is not one. *)
Definition malformed : gmap string pyval :=
  <[ "source" := unit_spec "A" "line" ]> good.

(** Three things wrong at once: the units of the source, the identifier
    of the target, the keys of the method. *)
Definition mixed : gmap string pyval :=
  {[ "source" := unit_spec aeneid_id "word";
     "target" := unit_spec unknown_id "phrase";
     "method" := PDict {[ "name" := PStr "original" ]} ]}.

(** The units of the source are not units and the target is empty. *)
Definition sloppy : gmap string pyval :=
  {[ "source" := unit_spec aeneid_id "word";
     "target" := PDict ∅;
     "method" := original_method ]}.

(** The target is missing and the source has no units. *)
Definition partial : gmap string pyval :=
  {[ "source" := PDict {[ "object_id" := PStr aeneid_id ]};
     "method" := original_method ]}.

Definition waiting : job :=
  mkJob "0123456789ab4def8123456789abcdef" (PStr "original")
    (mkParams [pharsalia; aeneid] (PStr "phrase") (PStr "form") (PList [])
       (PStr "texts") (PInt 5) (PStr "span")).

Definition full_queue : jobqueue := mkQueue 1 [waiting].

End Demo.

(** ** Validation as the rules read

    The rules of [submit_search] written as plain functions of the payload:
    a rule gathers every violation it finds, and the first rule that finds
    any ends validation.  These definitions are what the handler is compared
    with below; they are not used by it. *)

Inductive verdict : Type :=
| Reject (message : string)
| Unregistered (name : pyval)
| Accept.

Definition as_dict (o : option pyval) : gmap string pyval :=
  match o with
  | Some (PDict d) => d
  | _ => ∅
  end.

Definition as_str (o : option pyval) : string :=
  match o with
  | Some (PStr s) => s
  | _ => ""
  end.

(** The members of [keys] that [d] lacks, in the order of [keys]. *)
Definition missing_of (keys : list string) (d : gmap string pyval)
  : list string :=
  filter (fun k => d !! k = None) keys.

(** Rule 2, for one side. *)
Definition unit_errors (env : Env) (specs : gmap string pyval) (name : string)
  : list string :=
  (if decide (specs !! "object_id" = None)
   then [name +:+ " is missing object_id."] else []) ++
  match specs !! "units" with
  | None => [name +:+ " is missing units."]
  | Some units =>
      if is_str "line" units || is_str "phrase" units then []
      else [name +:+ " has unrecognized units: " +:+ py_str env units]
  end.

(** Rule 3: one lookup for both identifiers; an identifier is resolved
    when a document found carries it. *)
Definition lookup_texts (env : Env) (source_id target_id : string)
  : gmap string Text :=
  match oid_parse env source_id, oid_parse env target_id with
  | Some s, Some t => index_texts (find_texts env [s; t])
  | _, _ => ∅
  end.

Definition unresolved (env : Env) (source_id target_id : string)
  : list string :=
  filter (fun id => lookup_texts env source_id target_id !! id = None)
    [source_id; target_id].

Definition staged_validate (env : Env) (d : gmap string pyval) : verdict :=
  let missing := missing_of (requireds_iter env) d in
  if nonempty missing then
    Reject (msg_missing_keys +:+ String.concat ", " missing)
  else
  let source := as_dict (d !! "source") in
  let target := as_dict (d !! "target") in
  let errors :=
    unit_errors env source "source" ++ unit_errors env target "target" in
  if nonempty errors then
    Reject (msg_unit_errors +:+ String.concat (LF +:+ TAB) errors)
  else
  let ids := unresolved env (as_str (source !! "object_id"))
                            (as_str (target !! "object_id")) in
  if nonempty ids then
    Reject (msg_unknown_ids +:+ String.concat (LF +:+ TAB) ids)
  else
  let method := as_dict (d !! "method") in
  match method !! "name" with
  | None => Reject msg_no_name
  | Some name =>
      match method_requireds_get env name with
      | Ok keys =>
          let missing := missing_of keys method in
          if nonempty missing then
            Reject (msg_missing_method_keys +:+ String.concat ", " missing)
          else Accept
      | Raise _ => Unregistered name
      end
  end.

(** The payloads the rules are written for: [source], [target] and
    [method] are objects where they are present, and an [object_id] is a
    string the identifier parser accepts. *)
Definition dict_or_absent (o : option pyval) : bool :=
  match o with
  | Some (PDict _) | None => true
  | Some _ => false
  end.

Definition id_well_formed (env : Env) (specs : gmap string pyval) : bool :=
  match specs !! "object_id" with
  | Some (PStr s) => bool_decide (is_Some (oid_parse env s))
  | Some _ => false
  | None => true
  end.

Definition well_formed (env : Env) (d : gmap string pyval) : bool :=
  dict_or_absent (d !! "source") && dict_or_absent (d !! "target") &&
  dict_or_absent (d !! "method") &&
  id_well_formed env (as_dict (d !! "source")) &&
  id_well_formed env (as_dict (d !! "target")).

(** An environment iterates a set over its members, each once. *)
Definition env_wf (env : Env) : bool :=
  bool_decide (requireds_iter env ≡ₚ requireds) &&
  bool_decide (original_iter env ≡ₚ original_requireds).

#[global] Instance Text_inhabited : Inhabited Text := populate (mkText 0%N "").

(** The job an accepted payload is turned into. *)
Definition descriptor (env : Env) (d : gmap string pyval) : search_params :=
  let source := as_dict (d !! "source") in
  let target := as_dict (d !! "target") in
  let method := as_dict (d !! "method") in
  let source_id := as_str (source !! "object_id") in
  let target_id := as_str (target !! "object_id") in
  let results := lookup_texts env source_id target_id in
  {| texts := [results !!! source_id; results !!! target_id];
     unit_type := default PNone (source !! "units");
     feature := default PNone (method !! "feature");
     stopwords := default PNone (method !! "stopwords");
     frequency_basis := default PNone (method !! "freq_basis");
     max_distance := default PNone (method !! "max_distance");
     distance_metric := default PNone (method !! "distance_basis") |}.

Definition push (q : jobqueue) (j : job) : jobqueue :=
  {| maxsize := maxsize q; items := items q ++ [j] |}.

(** What is left of validation once the payload is accepted: lines
    110-133. *)
Definition enqueue_job (env : Env) (d : gmap string pyval) (rnd : N)
    (q : jobqueue)
  : result response * jobqueue :=
  if queue_full q then
    match apitess_error env with
    | Some error_fn => (Ok (error_fn 500%Z (PDict d) msg_queue_full), q)
    | None => (Raise (AttributeError "error"), q)
    end
  else
    (Ok (created (uuid4_hex rnd)),
     push q (mkJob (uuid4_hex rnd)
               (default PNone (as_dict (d !! "method") !! "name"))
               (descriptor env d))).

(** The whole of [submit_search] on a well-formed payload. *)
Definition submit_search_staged (env : Env) (d : gmap string pyval) (rnd : N)
    (q : jobqueue) : result response * jobqueue :=
  match staged_validate env d with
  | Reject message => (Ok (error 400 (PDict d) message), q)
  | Unregistered name =>
      match method_requireds_get env name with
      | Raise e => (Raise e, q)
      | Ok _ => (Raise (KeyError name), q)
      end
  | Accept => enqueue_job env d rnd q
  end.

(** *** Every violation at once

    The reading under which no rule ends validation: the violations of all
    five rules, and what it takes for a response to report them all. *)

Definition object_id_of (specs : gmap string pyval) : option string :=
  match specs !! "object_id" with
  | Some (PStr s) => Some s
  | _ => None
  end.

Definition all_violations (env : Env) (d : gmap string pyval) : list string :=
  let source := as_dict (d !! "source") in
  let target := as_dict (d !! "target") in
  let method := as_dict (d !! "method") in
  let ids := omap object_id_of [source; target] in
  let found := index_texts (find_texts env (omap (oid_parse env) ids)) in
  missing_of (requireds_iter env) d ++
  (if decide (d !! "source" = None) then []
   else unit_errors env source "source") ++
  (if decide (d !! "target" = None) then []
   else unit_errors env target "target") ++
  filter (fun id => found !! id = None) ids ++
  match d !! "method" with
  | None => []
  | Some _ =>
      match method !! "name" with
      | None => [msg_no_name]
      | Some name =>
          match method_requireds_get env name with
          | Ok keys => missing_of keys method
          | Raise _ => [py_str env name]
          end
      end
  end.

Definition reports_every_violation (env : Env) (d : gmap string pyval)
    (outcome : result response) : Prop :=
  exists resp message,
    outcome = Ok resp /\ status_code resp = 400%Z /\
    message_of resp = Some message /\
    forall v, v ∈ all_violations env d -> str_contains v message = true.

Definition valid_units (u : string) : Prop := u = "line" \/ u = "phrase".

(** The payload [d] with the units of its target replaced by [u]. *)
Definition with_target_units (u : string) (d : gmap string pyval)
  : gmap string pyval :=
  <[ "target" := PDict (<[ "units" := PStr u ]> (as_dict (d !! "target"))) ]> d.

(** The receiver gets back, stage by stage, what the handler put into the
    body for the document [doc]. *)
Definition round_trips (env : Env) (rcv : Receiver) (doc : pyval) : Prop :=
  let text := json_dumps env doc in
  let raw := str_encode env text in
  gzip_decompress rcv (gzip_compress env raw) = Some raw /\
  bytes_decode rcv raw = Some text /\
  json_loads rcv text = Some doc.

(** ** Further vocabulary

    What the properties of the second part are stated with. *)

(** The digits [str(ObjectId)] and [UUID.hex] are written with. *)
Definition lower_hex_char (c : ascii) : bool :=
  let n := N_of_ascii c in
  ((48 <=? n) && (n <=? 57) || (97 <=? n) && (n <=? 102))%N.

Fixpoint lower_hex (s : string) : bool :=
  match s with
  | EmptyString => true
  | String c rest => lower_hex_char c && lower_hex rest
  end.

Definition is_PStr (v : pyval) : bool :=
  match v with
  | PStr _ => true
  | _ => false
  end.

(** More payloads for the concrete environment. *)
Module Cases.

(** The identifier of the Aeneid, in capitals. *)
Definition capitals : gmap string pyval :=
  <[ "source" := Demo.unit_spec "5C6C69F042FACF59122418F6" "line" ]> Demo.good.

(** A source whose identifier is [null]. *)
Definition null_id : gmap string pyval :=
  <[ "source" := PDict {[ "object_id" := PNone; "units" := PStr "line" ]} ]>
    Demo.good.

(** A second valid request, the other way round. *)
Definition reversed : gmap string pyval :=
  {[ "source" := Demo.unit_spec Demo.pharsalia_id "phrase";
     "target" := Demo.unit_spec Demo.aeneid_id "phrase";
     "method" := Demo.original_method ]}.

End Cases.

(** The first two rules find nothing: the three keys are there, [source]
    and [target] are objects, and [_validate_units] accepts both. *)
Definition units_pass (env : Env) (d src tgt : gmap string pyval) : Prop :=
  missing_of (requireds_iter env) d = [] /\
  d !! "source" = Some (PDict src) /\
  d !! "target" = Some (PDict tgt) /\
  _validate_units env (PDict src) "source" = Ok [] /\
  _validate_units env (PDict tgt) "target" = Ok [].

(** The payload [d] with one more member [k] in its method. *)
Definition with_method_key (k : string) (v : pyval) (d : gmap string pyval)
  : gmap string pyval :=
  <[ "method" := PDict (<[ k := v ]> (as_dict (d !! "method"))) ]> d.

(** * Properties *)

(** ** The primitives, run *)

Example os_path_join_trailing :
  os_path_join "/parallels" ["0123abcd"; ""] = "/parallels/0123abcd/".
Proof. reflexivity. Qed.

Example os_path_join_absolute :
  os_path_join "/parallels" ["/etc"; ""] = "/etc/".
Proof. reflexivity. Qed.

Example uuid4_hex_zero :
  uuid4_hex 0 = "00000000000040008000000000000000".
Proof. vm_compute. reflexivity. Qed.

Example uuid4_hex_ones :
  uuid4_hex (2 ^ 128 - 1) = "ffffffffffff4fffbfffffffffffffff".
Proof. vm_compute. reflexivity. Qed.

Example py_in_substring : py_in "units" (PStr "no units here") = Ok true.
Proof. reflexivity. Qed.

Example py_getitem_of_list :
  py_getitem (PList [PStr "units"]) "units" = Raise TypeError.
Proof. reflexivity. Qed.

Example validate_units_accumulates :
  _validate_units Demo.env (PDict ∅) "target"
  = Ok ["target is missing object_id."; "target is missing units."].
Proof. reflexivity. Qed.

Example oid_str_of_aeneid :
  oid_str (text_id Demo.aeneid) = Demo.aeneid_id.
Proof. vm_compute. reflexivity. Qed.

(** ** The primitives *)

Lemma hbind_lift_Ok {A B : Type} (a : A) (k : A -> handler B) (q : jobqueue) :
  hbind (lift (Ok a)) k q = k a q.
Proof. reflexivity. Qed.

Lemma hbind_lift_Raise {A B : Type} (e : exn) (k : A -> handler B)
    (q : jobqueue) :
  hbind (lift (Raise e)) k q = (Raise e, q).
Proof. reflexivity. Qed.

Lemma py_in_dict (k : string) (d : gmap string pyval) :
  py_in k (PDict d) = Ok (bool_decide (is_Some (d !! k))).
Proof. reflexivity. Qed.

Lemma py_getitem_dict (k : string) (d : gmap string pyval) (v : pyval) :
  d !! k = Some v -> py_getitem (PDict d) k = Ok v.
Proof. intros H. unfold py_getitem. by rewrite H. Qed.

(** The loop gathers, in iteration order, exactly the keys that are not in
    the dictionary. *)
Lemma collect_missing_dict (keys : list string) (d : gmap string pyval)
    (acc : list string) :
  collect_missing keys (PDict d) acc = Ok (acc ++ missing_of keys d).
Proof.
  revert acc. induction keys as [|k keys IH]; intros acc.
  - by rewrite app_nil_r.
  - cbn [collect_missing]. rewrite py_in_dict. cbn [bind].
    rewrite IH. unfold missing_of. rewrite filter_cons.
    destruct (decide (d !! k = None)) as [Hk|Hk].
    + rewrite bool_decide_eq_false_2; [by rewrite <- app_assoc|].
      rewrite Hk. by intros [? ?].
    + rewrite bool_decide_eq_true_2; [done|].
      by apply not_eq_None_Some.
Qed.

Lemma missing_of_spec (keys : list string) (d : gmap string pyval)
    (k : string) :
  k ∈ missing_of keys d <-> k ∈ keys /\ d !! k = None.
Proof. unfold missing_of. rewrite list_elem_of_filter. tauto. Qed.

Lemma missing_of_nil (keys : list string) (d : gmap string pyval)
    (k : string) :
  missing_of keys d = [] -> k ∈ keys -> is_Some (d !! k).
Proof.
  intros Hnil Hk. apply not_eq_None_Some. intros Hnone.
  assert (k ∈ missing_of keys d) as Hin by by apply missing_of_spec.
  rewrite Hnil in Hin. by apply not_elem_of_nil in Hin.
Qed.

Lemma validate_units_dict (env : Env) (specs : gmap string pyval)
    (name : string) :
  _validate_units env (PDict specs) name = Ok (unit_errors env specs name).
Proof.
  unfold _validate_units, unit_errors.
  rewrite !py_in_dict. cbn [bind].
  destruct (specs !! "object_id") as [id|] eqn:Hid;
    destruct (specs !! "units") as [units|] eqn:Hunits; cbn.
  all: try rewrite Hunits; cbn.
  all: try (destruct (is_str "line" units), (is_str "phrase" units);
            reflexivity).
  all: reflexivity.
Qed.

(** ** The handler against the rules *)

Lemma env_wf_requireds (env : Env) (k : string) :
  env_wf env = true -> k ∈ requireds -> k ∈ requireds_iter env.
Proof.
  unfold env_wf. intros [H _]%andb_true_iff Hk.
  apply bool_decide_eq_true in H. by rewrite H.
Qed.

Lemma env_wf_original (env : Env) (k : string) :
  env_wf env = true -> k ∈ original_requireds -> k ∈ original_iter env.
Proof.
  unfold env_wf. intros [_ H]%andb_true_iff Hk.
  apply bool_decide_eq_true in H. by rewrite H.
Qed.

Lemma unit_errors_nil (env : Env) (specs : gmap string pyval) (name : string) :
  unit_errors env specs name = [] ->
  exists id units,
    specs !! "object_id" = Some id /\ specs !! "units" = Some units /\
    is_str "line" units || is_str "phrase" units = true.
Proof.
  unfold unit_errors. intros [H1 H2]%app_eq_nil.
  destruct (specs !! "object_id") as [id|]; [|discriminate].
  destruct (specs !! "units") as [units|]; [|discriminate].
  exists id, units. repeat split.
  by destruct (is_str "line" units || is_str "phrase" units).
Qed.

Lemma id_well_formed_str (env : Env) (specs : gmap string pyval) (id : pyval) :
  id_well_formed env specs = true -> specs !! "object_id" = Some id ->
  exists s o, id = PStr s /\ oid_parse env s = Some o.
Proof.
  unfold id_well_formed. intros H Hid. rewrite Hid in H.
  destruct id as [| | |s| |]; try discriminate.
  apply bool_decide_eq_true in H as [o Ho]. by exists s, o.
Qed.

Lemma dict_or_absent_some (o : option pyval) :
  dict_or_absent o = true -> is_Some o -> exists m, o = Some (PDict m).
Proof.
  intros H [v ->]. destruct v; try discriminate. by eexists.
Qed.

Lemma method_requireds_get_Ok (env : Env) (name : pyval) (keys : list string) :
  method_requireds_get env name = Ok keys ->
  name = PStr "original" /\ keys = original_iter env.
Proof.
  unfold method_requireds_get, method_requireds.
  destruct name as [| | |s| |]; try discriminate.
  destruct (decide (s = "original")) as [->|Hne].
  - rewrite lookup_singleton_eq. by intros [= <-].
  - rewrite lookup_singleton_ne by done. discriminate.
Qed.

Lemma bool_decide_is_Some_Some {A : Type} (x : A) :
  bool_decide (is_Some (Some x)) = true.
Proof. reflexivity. Qed.

Lemma bool_decide_is_Some_None {A : Type} :
  bool_decide (is_Some (@None A)) = false.
Proof. reflexivity. Qed.

Lemma submit_search_staged_correct env d rnd q :
  env_wf env = true -> well_formed env d = true ->
  submit_search env (PDict d) rnd q = submit_search_staged env d rnd q.
Proof.
  intros Hwf Hd.
  unfold submit_search, submit_search_staged, staged_validate.
  rewrite collect_missing_dict, hbind_lift_Ok. cbn [app].
  destruct (missing_of (requireds_iter env) d) as [|k0 ks] eqn:Hmiss;
    [|reflexivity].
  cbn [nonempty].
  assert (forall k, k ∈ requireds -> is_Some (d !! k)) as Hreq.
  { intros k Hk. eapply missing_of_nil; [done|]. by apply env_wf_requireds. }
  unfold well_formed in Hd.
  apply andb_true_iff in Hd as [Hd Htid].
  apply andb_true_iff in Hd as [Hd Hsid].
  apply andb_true_iff in Hd as [Hd Hm].
  apply andb_true_iff in Hd as [Hs Ht].
  apply dict_or_absent_some in Hs as [src Hs];
    [|apply Hreq; unfold requireds; set_solver].
  apply dict_or_absent_some in Ht as [tgt Ht];
    [|apply Hreq; unfold requireds; set_solver].
  apply dict_or_absent_some in Hm as [m Hm];
    [|apply Hreq; unfold requireds; set_solver].
  rewrite Hs, Ht, Hm in *. cbn [as_dict] in *.
  rewrite (py_getitem_dict _ _ _ Hs), hbind_lift_Ok.
  rewrite (py_getitem_dict _ _ _ Ht), hbind_lift_Ok.
  rewrite !validate_units_dict, !hbind_lift_Ok.
  destruct (unit_errors env src "source" ++ unit_errors env tgt "target")
    as [|e0 es] eqn:Herr; [|reflexivity].
  cbn [nonempty].
  apply app_eq_nil in Herr as [Herr_s Herr_t].
  apply unit_errors_nil in Herr_s as (sid0 & su & Hsid0 & Hsu & Hsu_ok).
  apply unit_errors_nil in Herr_t as (tid0 & tu & Htid0 & Htu & Htu_ok).
  destruct (id_well_formed_str _ _ _ Hsid Hsid0) as (sid & so & -> & Hso).
  destruct (id_well_formed_str _ _ _ Htid Htid0) as (tid & to & -> & Hto).
  rewrite (py_getitem_dict _ _ _ Hsid0), hbind_lift_Ok.
  rewrite (py_getitem_dict _ _ _ Htid0), hbind_lift_Ok.
  rewrite Hsid0, Htid0. cbn [as_str ObjectId].
  rewrite Hso, Hto, !hbind_lift_Ok.
  unfold unresolved, lookup_texts. rewrite Hso, Hto.
  set (results := index_texts (find_texts env [so; to])).
  cbn [results_has]. rewrite !hbind_lift_Ok.
  rewrite !filter_cons, filter_nil.
  destruct (results !! sid) as [source_text|] eqn:Ers;
    destruct (results !! tid) as [target_text|] eqn:Ert;
    rewrite ?bool_decide_is_Some_Some, ?bool_decide_is_Some_None;
    repeat case_decide; try congruence;
    cbn [nonempty app py_join all_strs];
    try (rewrite hbind_lift_Ok; reflexivity).
  cbn [results_get]. rewrite Ers, Ert, !hbind_lift_Ok.
  rewrite (py_getitem_dict _ _ _ Hm), hbind_lift_Ok.
  rewrite py_in_dict, hbind_lift_Ok.
  destruct (m !! "name") as [name|] eqn:Hname; [|reflexivity].
  rewrite bool_decide_is_Some_Some. cbn [negb].
  rewrite (py_getitem_dict _ _ _ Hname), hbind_lift_Ok.
  destruct (method_requireds_get env name) as [keys|e] eqn:Hkeys;
    [|by rewrite hbind_lift_Raise, Hkeys].
  rewrite hbind_lift_Ok, collect_missing_dict, hbind_lift_Ok. cbn [app].
  destruct (missing_of keys m) as [|k1 ks1] eqn:Hmiss_m; [|reflexivity].
  cbn [nonempty].
  apply method_requireds_get_Ok in Hkeys as [-> ->].
  assert (forall k, k ∈ original_requireds -> is_Some (m !! k)) as Hkeys.
  { intros k Hk. eapply missing_of_nil; [done|]. by apply env_wf_original. }
  destruct (Hkeys "feature") as [v1 H1];
    [unfold original_requireds; set_solver|].
  destruct (Hkeys "stopwords") as [v2 H2];
    [unfold original_requireds; set_solver|].
  destruct (Hkeys "freq_basis") as [v3 H3];
    [unfold original_requireds; set_solver|].
  destruct (Hkeys "max_distance") as [v4 H4];
    [unfold original_requireds; set_solver|].
  destruct (Hkeys "distance_basis") as [v5 H5];
    [unfold original_requireds; set_solver|].
  unfold enqueue_job, descriptor, lookup_texts, try_except_Full.
  rewrite Hs, Ht, Hm. cbn [as_dict].
  rewrite Hsid0, Htid0. cbn [as_str]. rewrite Hso, Hto.
  fold results.
  rewrite (lookup_total_correct _ _ _ Ers), (lookup_total_correct _ _ _ Ert).
  rewrite Hname, Hsu, H1, H2, H3, H4, H5. cbn [default].
  unfold hbind at 1.
  rewrite !hbind_lift_Ok.
  rewrite (py_getitem_dict _ _ _ Hsu), hbind_lift_Ok.
  rewrite (py_getitem_dict _ _ _ H1), hbind_lift_Ok.
  rewrite (py_getitem_dict _ _ _ H2), hbind_lift_Ok.
  rewrite (py_getitem_dict _ _ _ H3), hbind_lift_Ok.
  rewrite (py_getitem_dict _ _ _ H4), hbind_lift_Ok.
  rewrite (py_getitem_dict _ _ _ H5), hbind_lift_Ok.
  unfold hbind, queue_search, push.
  destruct (queue_full q); [|reflexivity].
  by destruct (apitess_error env).
Qed.

(** ** The queue is only ever touched by an admission *)

Ltac frame_step :=
  cbv beta zeta;
  lazymatch goal with
  | |- snd (hbind (lift ?m) _ _) = _ \/ _ =>
      destruct m eqn:?;
      [rewrite hbind_lift_Ok | rewrite hbind_lift_Raise; by left]
  | |- snd ((if ?b then _ else _) _) = _ \/ _ => destruct b eqn:?
  | |- snd (hret _ _) = _ \/ _ => by left
  end.

Lemma submit_search_frame (env : Env) (received : pyval) (rnd : N)
    (q : jobqueue) :
  snd (submit_search env received rnd q) = q \/
  exists j, submit_search env received rnd q
            = (Ok (created (uuid4_hex rnd)), push q j).
Proof.
  unfold submit_search.
  repeat frame_step.
  cbv [try_except_Full hbind lift hret].
  repeat match goal with
  | |- context [py_getitem ?v ?k] => destruct (py_getitem v k) eqn:?
  end;
  try match goal with
  | e : exn |- _ =>
      left; destruct e; try done; by destruct (apitess_error env)
  end.
  unfold queue_search. destruct (queue_full q).
  - left. by destruct (apitess_error env).
  - right. by eexists.
Qed.

(** ** Job identifiers and the location of a job *)

Lemma str_app_assoc (a b c : string) : (a +:+ b) +:+ c = a +:+ b +:+ c.
Proof.
  induction a as [|x a IH]; [done|].
  change (String x ((a +:+ b) +:+ c) = String x (a +:+ b +:+ c)).
  by rewrite IH.
Qed.

Lemma hex_digit_not_slash (n : N) : hex_digit n <> "/"%char.
Proof.
  unfold hex_digit. destruct n as [|p]; [done|].
  do 4 (try destruct p as [p|p|]); done.
Qed.

Lemma hex_digits_acc (digits : nat) (x : N) (acc : string) :
  hex_digits digits x acc = hex_digits digits x "" +:+ acc.
Proof.
  revert x acc. induction digits as [|n IH]; intros x acc; [done|].
  cbn [hex_digits]. rewrite (IH _ (String _ acc)), (IH _ (String _ "")).
  by rewrite str_app_assoc.
Qed.

(** A run of hexadecimal digits ends in one and begins with one. *)
Lemma hex_digits_last (n : nat) (x : N) :
  hex_digits (S n) x "" =
  hex_digits n (x / 16) "" +:+ String (hex_digit (x mod 16)) "".
Proof. cbn [hex_digits]. apply hex_digits_acc. Qed.

Lemma hex_digits_first (n : nat) (x : N) (acc : string) :
  exists c rest, hex_digits (S n) x acc = String c rest /\ c <> "/"%char.
Proof.
  revert x acc. induction n as [|n IH]; intros x acc.
  - eexists _, _. split; [reflexivity|]. apply hex_digit_not_slash.
  - destruct (IH (x / 16)%N (String (hex_digit (x mod 16)) acc))
      as (c & rest & Heq & Hc).
    exists c, rest. by split.
Qed.

Lemma ends_with_slash_snoc (s : string) (c : ascii) :
  ends_with_slash (s +:+ String c "") = bool_decide (c = "/"%char).
Proof.
  induction s as [|c0 s IH]; [done|].
  destruct s as [|c1 s]; [done|].
  exact IH.
Qed.

(** [os.path.join('/parallels', id, '')] for an identifier made of
    hexadecimal digits. *)
Lemma location_of_uuid (rnd : N) :
  os_path_join url_prefix [uuid4_hex rnd; ""]
  = "/parallels/" +:+ uuid4_hex rnd +:+ "/".
Proof.
  unfold uuid4_hex, url_prefix.
  destruct (hex_digits_first 31 (uuid4_int rnd) "") as (c & rest & Heq & Hc).
  cbn [os_path_join].
  assert (starts_with "/" (hex_digits 32 (uuid4_int rnd) "") = false) as ->.
  { rewrite Heq. unfold starts_with. cbn [String.prefix].
    destruct (Ascii.ascii_dec "/" c) as [<-|]; done. }
  replace (bool_decide ("/parallels" = "") || ends_with_slash "/parallels")
    with false by done.
  replace (starts_with "/" "") with false by done.
  rewrite hex_digits_last.
  set (body := hex_digits 31 (uuid4_int rnd / 16) "").
  set (last := hex_digit (uuid4_int rnd mod 16)).
  assert (ends_with_slash ("/parallels" +:+ "/" +:+ body +:+ String last "")
          = false) as Hend.
  { replace ("/parallels" +:+ "/" +:+ body +:+ String last "")
      with (("/parallels/" +:+ body) +:+ String last "") by done.
    rewrite ends_with_slash_snoc. apply bool_decide_eq_false_2.
    apply hex_digit_not_slash. }
  rewrite Hend.
  rewrite bool_decide_eq_false_2 by done.
  cbn [orb]. rewrite !str_app_assoc. reflexivity.
Qed.

(** ** Submission *)

(** What the handler does with a payload whose method is not in the
    table: the subscript raises, and the queue is as it was. *)
Lemma submit_search_unregistered (env : Env) (d : gmap string pyval)
    (name : pyval) (rnd : N) (q : jobqueue) :
  env_wf env = true -> well_formed env d = true ->
  staged_validate env d = Unregistered name ->
  exists e, submit_search env (PDict d) rnd q = (Raise e, q).
Proof.
  intros Hwf Hd Hv. rewrite submit_search_staged_correct by done.
  unfold submit_search_staged. rewrite Hv.
  destruct (method_requireds_get env name); by eexists.
Qed.

(** C1.  A payload whose method name is not a key of the table is not
    answered with a 400: the handler subscripts [method_requireds] with the
    name before anything has checked it (line 101), and the [KeyError]
    leaves the handler.  Here the payload is [Demo.fancy], whose method is
    named [fancy]. *)
Theorem submit_search_unregistered_method_raises :
  submit_search Demo.env (PDict Demo.fancy) 12345 Demo.empty_queue
  = (Raise (KeyError (PStr "fancy")), Demo.empty_queue).
Proof. vm_compute. reflexivity. Qed.

(** With the queue at capacity and no [apitess.error] to call, an accepted
    payload ends in an [AttributeError]. *)
Lemma submit_search_queue_full (env : Env) (d : gmap string pyval) (rnd : N)
    (q : jobqueue) :
  env_wf env = true -> well_formed env d = true ->
  staged_validate env d = Accept ->
  queue_full q = true -> apitess_error env = None ->
  submit_search env (PDict d) rnd q = (Raise (AttributeError "error"), q).
Proof.
  intros Hwf Hd Hv Hfull Herr. rewrite submit_search_staged_correct by done.
  unfold submit_search_staged, enqueue_job. by rewrite Hv, Hfull, Herr.
Qed.

(** C2.  When the queue is at capacity the handler does not get to build
    the busy response: line 128 reads [apitess.error], a name the module
    never imports (it imports [apitess.errors]), so the handler of
    [queue.Full] raises an [AttributeError] itself.  The queue is left as it
    was.  Here the payload is the valid [Demo.good] and the queue holds its
    one job. *)
Theorem submit_search_queue_full_raises :
  submit_search Demo.env (PDict Demo.good) 12345 Demo.full_queue
  = (Raise (AttributeError "error"), Demo.full_queue).
Proof. vm_compute. reflexivity. Qed.

(** C3, as stated, fails: for [Demo.mixed] (units [word] on the source, an
    unknown identifier on the target, a method with nothing but its name)
    the response speaks of the units only. *)
Lemma not_every_violation_reported :
  ~ reports_every_violation Demo.env Demo.mixed
      (fst (submit_search Demo.env (PDict Demo.mixed) 0 Demo.empty_queue)).
Proof.
  intros (resp & message & Hout & _ & Hmsg & Hall).
  vm_compute in Hout. injection Hout as <-.
  vm_compute in Hmsg. injection Hmsg as <-.
  assert (Demo.unknown_id ∈ all_violations Demo.env Demo.mixed) as Hin.
  { vm_compute. apply list_elem_of_In. cbn. tauto. }
  apply Hall in Hin. vm_compute in Hin. discriminate.
Qed.

(** C3, amended.  The rules are applied in order; each gathers all of its
    own violations (every missing key, every unit error of both sides, every
    unknown identifier, every missing method key), and the first rule that
    finds any ends validation: the 400 response carries the message
    [staged_validate] computes, the violations of that rule alone, and the
    queue is as it was. *)
Theorem submit_search_reports_first_failing_rule (env : Env)
    (d : gmap string pyval) (message : string) (rnd : N) (q : jobqueue) :
  env_wf env = true -> well_formed env d = true ->
  staged_validate env d = Reject message ->
  submit_search env (PDict d) rnd q = (Ok (error 400 (PDict d) message), q).
Proof.
  intros Hwf Hd Hv. rewrite submit_search_staged_correct by done.
  unfold submit_search_staged. by rewrite Hv.
Qed.

Lemma submit_search_reports_first_failing_rule_witness :
  submit_search Demo.env (PDict Demo.partial) 0 Demo.empty_queue
  = (Ok (error 400 (PDict Demo.partial) (msg_missing_keys +:+ "target")),
     Demo.empty_queue) /\
  submit_search Demo.env (PDict Demo.sloppy) 0 Demo.full_queue
  = (Ok (error 400 (PDict Demo.sloppy)
           (msg_unit_errors +:+
            String.concat (LF +:+ TAB)
              ["source has unrecognized units: word";
               "target is missing object_id.";
               "target is missing units."])),
     Demo.full_queue).
Proof.
  split.
  - apply (submit_search_reports_first_failing_rule Demo.env Demo.partial);
      vm_compute; reflexivity.
  - apply (submit_search_reports_first_failing_rule Demo.env Demo.sloppy);
      vm_compute; reflexivity.
Defined.

(** Where both identifiers are ones the parser accepts, the third rule does
    what it is meant to: the message lists the identifiers no document was
    found for, and nothing is put on the queue. *)
Lemma unresolved_spec (env : Env) (source_id target_id id : string) :
  id ∈ unresolved env source_id target_id <->
  id ∈ [source_id; target_id] /\
  lookup_texts env source_id target_id !! id = None.
Proof. unfold unresolved. rewrite list_elem_of_filter. tauto. Qed.

Lemma submit_search_unknown_ids (env : Env) (d src tgt : gmap string pyval)
    (source_id target_id : string) (rnd : N) (q : jobqueue) :
  env_wf env = true -> well_formed env d = true ->
  missing_of (requireds_iter env) d = [] ->
  d !! "source" = Some (PDict src) -> d !! "target" = Some (PDict tgt) ->
  unit_errors env src "source" = [] -> unit_errors env tgt "target" = [] ->
  src !! "object_id" = Some (PStr source_id) ->
  tgt !! "object_id" = Some (PStr target_id) ->
  unresolved env source_id target_id <> [] ->
  submit_search env (PDict d) rnd q
  = (Ok (error 400 (PDict d)
           (msg_unknown_ids +:+
            String.concat (LF +:+ TAB) (unresolved env source_id target_id))),
     q).
Proof.
  intros Hwf Hd Hmiss Hs Ht Hes Het Hsid Htid Hne.
  rewrite submit_search_staged_correct by done.
  unfold submit_search_staged, staged_validate.
  rewrite Hmiss, Hs, Ht. cbn [nonempty as_dict].
  rewrite Hes, Het, Hsid, Htid. cbn [app nonempty as_str].
  by destruct (unresolved env source_id target_id).
Qed.

(** C4.  An [object_id] that is not the text of an identifier does not
    reach the lookup: [ObjectId] raises [InvalidId] at line 73 and no 400 is
    returned.  Here the source of [Demo.malformed] has the identifier
    [A]. *)
Theorem submit_search_malformed_object_id_raises :
  submit_search Demo.env (PDict Demo.malformed) 12345 Demo.empty_queue
  = (Raise InvalidId, Demo.empty_queue).
Proof. vm_compute. reflexivity. Qed.

(** C5.  An accepted payload that finds room in the queue is answered with
    201, an empty body and the location [/parallels/<job_id>/]; the job put
    on the queue carries that identifier. *)
Theorem submit_search_created (env : Env) (d : gmap string pyval) (rnd : N)
    (q : jobqueue) :
  env_wf env = true -> well_formed env d = true ->
  staged_validate env d = Accept -> queue_full q = false ->
  exists j,
    submit_search env (PDict d) rnd q
    = (Ok {| status_code := 201;
             mimetype := "text/html";
             headers :=
               [("Location", "/parallels/" +:+ uuid4_hex rnd +:+ "/")];
             data := BodyEmpty |},
       push q j) /\
    job_results_id j = uuid4_hex rnd.
Proof.
  intros Hwf Hd Hv Hfull. rewrite submit_search_staged_correct by done.
  unfold submit_search_staged, enqueue_job. rewrite Hv, Hfull.
  eexists. split.
  - unfold created. by rewrite location_of_uuid.
  - reflexivity.
Qed.

Lemma submit_search_created_witness :
  exists j,
    submit_search Demo.env (PDict Demo.good) 12345 Demo.empty_queue
    = (Ok {| status_code := 201;
             mimetype := "text/html";
             headers :=
               [("Location", "/parallels/" +:+ uuid4_hex 12345 +:+ "/")];
             data := BodyEmpty |},
       push Demo.empty_queue j) /\
    job_results_id j = uuid4_hex 12345.
Proof.
  apply (submit_search_created Demo.env Demo.good 12345 Demo.empty_queue);
    vm_compute; reflexivity.
Defined.

(** C9.  A payload that fails the rule on method names is a validation
    failure that is not answered with a 400: the handler raises.  (The
    queue is untouched all the same, see [submit_search_frame].)  The defect
    is the one of C1. *)
Theorem submit_search_invalid_method_not_400 :
  fst (submit_search Demo.env (PDict Demo.fancy) 7 Demo.full_queue)
  = Raise (KeyError (PStr "fancy")) /\
  snd (submit_search Demo.env (PDict Demo.fancy) 7 Demo.full_queue)
  = Demo.full_queue.
Proof. split; vm_compute; reflexivity. Qed.

(** ** Status and results *)

(** C6.  [retrieve_status] answers 404 with the text
    [Could not find results_id] exactly when the Store has no status record
    for the identifier; otherwise it answers 200 with a JSON object holding
    the [results_id], [status] and [msg] of the first record found, as they
    are. *)
Theorem retrieve_status_spec (env : Env) (results_id : string) :
  exists resp,
    retrieve_status env results_id = Ok resp /\
    (status_code resp = 404%Z <-> find_status env results_id = []) /\
    (find_status env results_id = [] ->
     data resp = BodyText "Could not find results_id") /\
    (forall st rest,
       find_status env results_id = st :: rest ->
       status_code resp = 200%Z /\
       exists fields,
         data resp = BodyJson (PDict fields) /\
         fields !! "results_id" = Some (rs_results_id st) /\
         fields !! "status" = Some (rs_status st) /\
         fields !! "message" = Some (rs_msg st)).
Proof.
  unfold retrieve_status.
  destruct (find_status env results_id) as [|st rest].
  - eexists. split; [reflexivity|].
    split; [done|]. split; [done|]. intros st rest [=].
  - eexists. split; [reflexivity|].
    split; [split; intros [=]|]. split; [intros [=]|].
    intros st' rest' [= <- <-]. split; [reflexivity|].
    eexists. split; [reflexivity|].
    repeat split; by simplify_map_eq.
Qed.

Lemma retrieve_status_spec_witness :
  exists resp,
    retrieve_status Demo.env "job-done" = Ok resp /\
    status_code resp = 200%Z /\
    exists fields,
      data resp = BodyJson (PDict fields) /\
      fields !! "results_id" = Some (PStr "job-done") /\
      fields !! "status" = Some (PStr "Done") /\
      fields !! "message" = Some (PStr "Search complete").
Proof.
  destruct (retrieve_status_spec Demo.env "job-done")
    as (resp & Hresp & _ & _ & Hfound).
  exists resp. split; [exact Hresp|].
  apply (Hfound Demo.finished []). reflexivity.
Defined.

(** C7.  For a job whose status record refers to a MatchSet the Store
    has, the answer is 200, names [gzip] as its content encoding, and its
    body, once the receiver has undone what the header names, is the object
    with the parameters of the MatchSet under [data] and, under
    [parallels], the encodings of the matches the Store returns for that
    MatchSet, in the order it returns them. *)
Theorem retrieve_results_round_trip (env : Env) (rcv : Receiver)
    (results_id : string) (st : ResultsStatus) (rest : list ResultsStatus)
    (ref : oid) (ms : MatchSet) (others : list MatchSet) :
  find_status env results_id = st :: rest ->
  rs_match_set_id st = Some ref ->
  find_match_sets env ref = ms :: others ->
  round_trips env rcv (results_document env ms) ->
  exists resp,
    retrieve_results env results_id = Ok resp /\
    status_code resp = 200%Z /\
    header "Content-Encoding" resp = Some "gzip" /\
    decode_body rcv resp
    = Some (PDict {[ "data" := ms_parameters ms;
                     "parallels" :=
                       PList (map (json_encode env)
                                (find_matches env (ms_id ms))) ]}).
Proof.
  intros Hst Href Hms (Hgzip & Hbytes & Hjson).
  unfold retrieve_results. rewrite Hst, Href. cbn [ObjectId_of_ref].
  rewrite Hms. eexists. split; [reflexivity|].
  split; [done|]. split; [done|].
  unfold decode_body, header. cbn [data headers header_lookup String.eqb].
  replace (String.eqb "Content-Encoding" "Content-Encoding") with true by done.
  rewrite Hgzip. cbn [mbind option_bind]. rewrite Hbytes.
  cbn [mbind option_bind]. exact Hjson.
Qed.

Lemma retrieve_results_round_trip_witness :
  exists resp,
    retrieve_results Demo.env "job-done" = Ok resp /\
    status_code resp = 200%Z /\
    header "Content-Encoding" resp = Some "gzip" /\
    decode_body Demo.receiver resp
    = Some (PDict {[ "data" := PDict {[ "feature" := PStr "lemma" ]};
                     "parallels" :=
                       PList [PDict (match_fields Demo.match1);
                              PDict (match_fields Demo.match2)] ]}).
Proof.
  apply (retrieve_results_round_trip Demo.env Demo.receiver "job-done"
           Demo.finished [] 0x5d00000000000000000000a1%N
           Demo.lemma_search []);
    try reflexivity.
  repeat split; vm_compute; reflexivity.
Defined.

(** C8.  [retrieve_results] answers 404, and raises nothing, when there is
    no status record, when the record has no [match_set_id], and when its
    [match_set_id] names no MatchSet of the Store.  For a record without a
    [match_set_id] the lookup is made with the identifier [ObjectId(None)]
    generates; that a new identifier names no stored MatchSet is the
    assumption [find_match_sets env (oid_generate env) = []]. *)
Theorem retrieve_results_not_found (env : Env) (results_id : string) :
  find_match_sets env (oid_generate env) = [] ->
  (find_status env results_id = [] \/
   exists st rest,
     find_status env results_id = st :: rest /\
     (rs_match_set_id st = None \/
      exists ref,
        rs_match_set_id st = Some ref /\ find_match_sets env ref = [])) ->
  exists resp text,
    retrieve_results env results_id = Ok resp /\
    status_code resp = 404%Z /\ data resp = BodyText text.
Proof.
  intros Hnew Hcase. unfold retrieve_results.
  destruct Hcase as [->|(st & rest & -> & [Hunset|(ref & Href & Hnone)])].
  - by eexists _, _.
  - rewrite Hunset. cbn [ObjectId_of_ref]. rewrite Hnew. by eexists _, _.
  - rewrite Href. cbn [ObjectId_of_ref]. rewrite Hnone. by eexists _, _.
Qed.

Lemma retrieve_results_not_found_witness :
  (exists resp text,
     retrieve_results Demo.env "job-unknown" = Ok resp /\
     status_code resp = 404%Z /\ data resp = BodyText text) /\
  (exists resp text,
     retrieve_results Demo.env "job-running" = Ok resp /\
     status_code resp = 404%Z /\ data resp = BodyText text) /\
  (exists resp text,
     retrieve_results Demo.env "job-dangling" = Ok resp /\
     status_code resp = 404%Z /\ data resp = BodyText text).
Proof.
  repeat split.
  - apply (retrieve_results_not_found Demo.env "job-unknown");
      [reflexivity|]. left. reflexivity.
  - apply (retrieve_results_not_found Demo.env "job-running");
      [reflexivity|]. right. exists Demo.running, []. split; [reflexivity|].
    left. reflexivity.
  - apply (retrieve_results_not_found Demo.env "job-dangling");
      [reflexivity|]. right. exists Demo.dangling, []. split; [reflexivity|].
    right. exists 0x5d00000000000000000000ff%N. split; reflexivity.
Defined.

(** ** The units of the target *)

Lemma missing_of_insert_present (keys : list string) (d : gmap string pyval)
    (k : string) (v : pyval) :
  is_Some (d !! k) -> missing_of keys (<[k := v]> d) = missing_of keys d.
Proof.
  intros Hk. unfold missing_of. apply list_filter_iff. intros x.
  destruct (decide (k = x)) as [<-|Hne].
  - rewrite lookup_insert_eq. destruct Hk as [w ->]. done.
  - by rewrite lookup_insert_ne.
Qed.

Lemma unit_errors_with_units (env : Env) (specs : gmap string pyval)
    (u name : string) :
  valid_units u -> unit_errors env specs name = [] ->
  unit_errors env (<["units" := PStr u]> specs) name = [].
Proof.
  intros Hu (id & units & Hid & _ & _)%unit_errors_nil.
  unfold unit_errors.
  rewrite lookup_insert_ne by done. rewrite Hid, lookup_insert_eq.
  by destruct Hu as [-> | ->].
Qed.

(** An accepted payload has a target, which is an object without unit
    errors. *)
Lemma accepted_target (env : Env) (d : gmap string pyval) :
  env_wf env = true -> well_formed env d = true ->
  staged_validate env d = Accept ->
  exists tgt,
    d !! "target" = Some (PDict tgt) /\ unit_errors env tgt "target" = [].
Proof.
  intros Hwf Hd. unfold staged_validate.
  destruct (missing_of (requireds_iter env) d) as [|k ks] eqn:Hmiss;
    [|discriminate].
  cbn [nonempty].
  assert (is_Some (d !! "target")) as Ht.
  { eapply missing_of_nil; [done|]. apply env_wf_requireds; [done|].
    unfold requireds. set_solver. }
  unfold well_formed in Hd.
  apply andb_true_iff in Hd as [Hd _].
  apply andb_true_iff in Hd as [Hd _].
  apply andb_true_iff in Hd as [Hd _].
  apply andb_true_iff in Hd as [_ Hdict].
  apply dict_or_absent_some in Hdict as [tgt Htgt]; [|done].
  rewrite Htgt. cbn [as_dict].
  destruct (unit_errors env (as_dict (d !! "source")) "source" ++
            unit_errors env tgt "target") as [|e es] eqn:Herr;
    [|discriminate].
  intros _. exists tgt. split; [done|].
  by apply app_eq_nil in Herr as [_ ?].
Qed.

Section with_target_units.
Context (env : Env) (d tgt : gmap string pyval) (u : string).
Hypothesis Htgt : d !! "target" = Some (PDict tgt).
Hypothesis Herrors : unit_errors env tgt "target" = [].
Hypothesis Hu : valid_units u.

Lemma with_target_units_source :
  with_target_units u d !! "source" = d !! "source".
Proof. unfold with_target_units. by rewrite lookup_insert_ne. Qed.

Lemma with_target_units_method :
  with_target_units u d !! "method" = d !! "method".
Proof. unfold with_target_units. by rewrite lookup_insert_ne. Qed.

Lemma with_target_units_target :
  with_target_units u d !! "target"
  = Some (PDict (<["units" := PStr u]> tgt)).
Proof.
  unfold with_target_units. by rewrite lookup_insert_eq, Htgt.
Qed.

Lemma staged_validate_with_target_units :
  staged_validate env (with_target_units u d) = staged_validate env d.
Proof.
  unfold staged_validate.
  rewrite with_target_units_source, with_target_units_method,
    with_target_units_target, Htgt.
  cbn [as_dict].
  rewrite unit_errors_with_units, Herrors by done.
  rewrite (lookup_insert_ne tgt "units" "object_id") by done.
  unfold with_target_units.
  by rewrite missing_of_insert_present by (by rewrite Htgt).
Qed.

Lemma well_formed_with_target_units :
  well_formed env (with_target_units u d) = well_formed env d.
Proof.
  unfold well_formed.
  rewrite with_target_units_source, with_target_units_method,
    with_target_units_target, Htgt.
  cbn [as_dict dict_or_absent]. unfold id_well_formed.
  by rewrite (lookup_insert_ne tgt "units" "object_id").
Qed.

Lemma descriptor_with_target_units :
  descriptor env (with_target_units u d) = descriptor env d.
Proof.
  unfold descriptor.
  rewrite with_target_units_source, with_target_units_method,
    with_target_units_target, Htgt.
  cbn [as_dict].
  by rewrite (lookup_insert_ne tgt "units" "object_id").
Qed.
End with_target_units.

(** C10.  Take an accepted payload and give its target the other units:
    the payload is accepted again and the job put on the queue has the same
    search type and the same parameters; its [unit_type] is the [units] of
    the source.  Only the identifiers of the two jobs differ. *)
Theorem submit_search_ignores_target_units (env : Env)
    (d : gmap string pyval) (u : string) (rnd rnd' : N) (q : jobqueue) :
  env_wf env = true -> well_formed env d = true ->
  staged_validate env d = Accept -> valid_units u -> queue_full q = false ->
  exists j j',
    submit_search env (PDict d) rnd q
    = (Ok (created (uuid4_hex rnd)), push q j) /\
    submit_search env (PDict (with_target_units u d)) rnd' q
    = (Ok (created (uuid4_hex rnd')), push q j') /\
    job_search_type j' = job_search_type j /\
    job_params j' = job_params j /\
    unit_type (job_params j)
    = default PNone (as_dict (d !! "source") !! "units").
Proof.
  intros Hwf Hd Hv Hu Hfull.
  destruct (accepted_target env d Hwf Hd Hv) as (tgt & Htgt & Herrors).
  pose proof (staged_validate_with_target_units env d tgt u Htgt Herrors Hu)
    as Hv'.
  pose proof (well_formed_with_target_units env d tgt u Htgt) as Hd'.
  pose proof (descriptor_with_target_units env d tgt u Htgt) as Hdesc.
  rewrite !submit_search_staged_correct by congruence.
  unfold submit_search_staged, enqueue_job.
  rewrite Hv', Hv, Hfull, Hdesc, (with_target_units_method d u).
  eexists _, _. repeat split.
Qed.

Lemma submit_search_ignores_target_units_witness :
  exists j j',
    submit_search Demo.env (PDict Demo.good) 1 Demo.empty_queue
    = (Ok (created (uuid4_hex 1)), push Demo.empty_queue j) /\
    submit_search Demo.env (PDict (with_target_units "line" Demo.good)) 2
      Demo.empty_queue
    = (Ok (created (uuid4_hex 2)), push Demo.empty_queue j') /\
    job_search_type j' = job_search_type j /\
    job_params j' = job_params j /\
    unit_type (job_params j)
    = default PNone (as_dict (Demo.good !! "source") !! "units").
Proof.
  apply (submit_search_ignores_target_units Demo.env Demo.good "line" 1 2
           Demo.empty_queue);
    try (vm_compute; reflexivity).
  left. reflexivity.
Defined.

(** * Further properties *)

(** ** [_validate_units] *)

Lemma is_str_true (k : string) (v : pyval) : is_str k v = true -> v = PStr k.
Proof.
  destruct v; try discriminate. cbn [is_str].
  by intros ->%String.eqb_eq.
Qed.

Lemma prefix_app (p s : string) : String.prefix p (p +:+ s) = true.
Proof.
  induction p as [|c p IH]; [by destruct s|].
  change (String c p +:+ s) with (String c (p +:+ s)).
  cbn [String.prefix]. by destruct (Ascii.ascii_dec c c).
Qed.

(** The specification of one side is accepted exactly when it has an
    [object_id], of whatever value, and its [units] are the string [line]
    or the string [phrase]. *)
Theorem validate_units_accepts_iff (env : Env) (specs : gmap string pyval)
    (name : string) :
  _validate_units env (PDict specs) name = Ok [] <->
  is_Some (specs !! "object_id") /\
  (specs !! "units" = Some (PStr "line") \/
   specs !! "units" = Some (PStr "phrase")).
Proof.
  rewrite validate_units_dict. split.
  - intros [= H]. apply unit_errors_nil in H as (id & units & Hid & Hu & Hok).
    split; [by rewrite Hid|]. rewrite Hu.
    apply orb_true_iff in Hok as [->%is_str_true | ->%is_str_true]; auto.
  - intros [[id Hid] Hunits]. f_equal. unfold unit_errors. rewrite Hid.
    by destruct Hunits as [-> | ->].
Qed.

(** On an object the function does not raise; it returns at most two
    messages, and each begins with the name of the side. *)
Theorem validate_units_on_object (env : Env) (specs : gmap string pyval)
    (name : string) :
  exists errors,
    _validate_units env (PDict specs) name = Ok errors /\
    length errors <= 2 /\
    Forall (fun e => String.prefix name e = true) errors.
Proof.
  rewrite validate_units_dict. eexists. split; [reflexivity|].
  unfold unit_errors.
  destruct (decide (specs !! "object_id" = None));
    destruct (specs !! "units") as [units|];
    try destruct (is_str "line" units || is_str "phrase" units);
    cbn [app length]; (split; [lia|]);
    repeat constructor; apply prefix_app.
Qed.

(** A value that is not an object is never accepted: the function raises,
    or it reports at least one error. *)
Theorem validate_units_rejects_non_object (env : Env) (specs : pyval)
    (name : string) :
  (forall d, specs <> PDict d) -> _validate_units env specs name <> Ok [].
Proof.
  intros Hnot. unfold _validate_units.
  destruct specs as [| | |s|l|d]; try discriminate.
  - cbn [py_in bind]. destruct (str_contains "units" s); cbn [negb].
    + discriminate.
    + intros [= H]. by apply app_eq_nil in H as [_ ?].
  - cbn [py_in bind]. destruct (existsb (is_str "units") l); cbn [negb].
    + discriminate.
    + intros [= H]. by apply app_eq_nil in H as [_ ?].
  - by destruct (Hnot d).
Qed.

Lemma validate_units_rejects_non_object_witness :
  _validate_units Demo.env (PStr "object_id units") "source" <> Ok [].
Proof.
  apply (validate_units_rejects_non_object Demo.env
           (PStr "object_id units") "source").
  discriminate.
Defined.

(** ** [submit_search]: the first rules on any payload *)

Lemma NoDup_requireds : NoDup requireds.
Proof. by apply (bool_decide_unpack _). Qed.

(** Whatever else an object holds, a missing key is answered at once: the
    message lists the missing keys of [source], [target] and [method], each
    once and no other, and the queue is as it was. *)
Theorem submit_search_missing_keys (env : Env) (d : gmap string pyval)
    (rnd : N) (q : jobqueue) :
  env_wf env = true ->
  (exists k, k ∈ requireds /\ d !! k = None) ->
  exists missing,
    submit_search env (PDict d) rnd q
    = (Ok (error 400 (PDict d)
             (msg_missing_keys +:+ String.concat ", " missing)), q) /\
    NoDup missing /\
    forall k, k ∈ missing <-> k ∈ requireds /\ d !! k = None.
Proof.
  intros Hwf (k0 & Hk0 & Hnone).
  assert (requireds_iter env ≡ₚ requireds) as Hperm.
  { unfold env_wf in Hwf. apply andb_true_iff in Hwf as [H _].
    by apply bool_decide_eq_true in H. }
  exists (missing_of (requireds_iter env) d). split; [|split].
  - unfold submit_search.
    rewrite collect_missing_dict, hbind_lift_Ok. cbn [app].
    destruct (missing_of (requireds_iter env) d) as [|k ks] eqn:Hmiss;
      [|reflexivity].
    assert (k0 ∈ missing_of (requireds_iter env) d) as Hin.
    { apply missing_of_spec. split; [by rewrite Hperm|done]. }
    rewrite Hmiss in Hin. by apply not_elem_of_nil in Hin.
  - unfold missing_of. apply NoDup_filter. rewrite Hperm.
    apply NoDup_requireds.
  - intros k. rewrite missing_of_spec. by rewrite Hperm.
Qed.

Lemma submit_search_missing_keys_witness :
  exists missing,
    submit_search Demo.env (PDict Demo.partial) 3 Demo.full_queue
    = (Ok (error 400 (PDict Demo.partial)
             (msg_missing_keys +:+ String.concat ", " missing)),
       Demo.full_queue) /\
    NoDup missing /\
    forall k, k ∈ missing <-> k ∈ requireds /\ Demo.partial !! k = None.
Proof.
  apply (submit_search_missing_keys Demo.env Demo.partial 3 Demo.full_queue).
  - vm_compute. reflexivity.
  - exists "target". split; [|reflexivity].
    unfold requireds. set_solver.
Defined.

Lemma py_in_raises (k : string) (v : pyval) (e : exn) :
  py_in k v = Raise e -> e = TypeError.
Proof. destruct v; cbn; congruence. Qed.

Lemma collect_missing_raises (keys : list string) (v : pyval)
    (acc : list string) (e : exn) :
  collect_missing keys v acc = Raise e -> e = TypeError.
Proof.
  revert acc. induction keys as [|k keys IH]; intros acc; [discriminate|].
  cbn [collect_missing]. destruct (py_in k v) as [b|e'] eqn:Hin; cbn [bind].
  - apply IH.
  - intros [= <-]. by apply py_in_raises in Hin.
Qed.

(** A payload that is not an object (an array, a string, a number,
    [null]) is never accepted: the handler raises [TypeError] or reports
    missing keys, and the queue is as it was. *)
Theorem submit_search_non_object (env : Env) (received : pyval) (rnd : N)
    (q : jobqueue) :
  (forall d, received <> PDict d) ->
  submit_search env received rnd q = (Raise TypeError, q) \/
  exists m,
    submit_search env received rnd q
    = (Ok (error 400 received (msg_missing_keys +:+ m)), q).
Proof.
  intros Hnot. unfold submit_search.
  destruct (collect_missing (requireds_iter env) received [])
    as [missing|e] eqn:Hc.
  - rewrite hbind_lift_Ok. destruct missing as [|k ks]; cbn [nonempty].
    + left. destruct received; try reflexivity. by destruct (Hnot d).
    + right. by eexists.
  - rewrite hbind_lift_Raise. left.
    by apply collect_missing_raises in Hc as ->.
Qed.

Lemma submit_search_non_object_witness :
  submit_search Demo.env (PList [PStr "source"; PStr "target"; PStr "method"])
    0 Demo.empty_queue
  = (Raise TypeError, Demo.empty_queue) \/
  exists m,
    submit_search Demo.env
      (PList [PStr "source"; PStr "target"; PStr "method"]) 0
      Demo.empty_queue
    = (Ok (error 400 (PList [PStr "source"; PStr "target"; PStr "method"])
             (msg_missing_keys +:+ m)),
       Demo.empty_queue).
Proof.
  apply (submit_search_non_object Demo.env
           (PList [PStr "source"; PStr "target"; PStr "method"]) 0
           Demo.empty_queue).
  discriminate.
Defined.

(** The code up to the end of the second rule, with nothing found. *)
Ltac past_units H :=
  let Hmiss := fresh "Hmiss" in
  let Hs := fresh "Hs" in
  let Ht := fresh "Ht" in
  let Hes := fresh "Hes" in
  let Het := fresh "Het" in
  destruct H as (Hmiss & Hs & Ht & Hes & Het);
  unfold submit_search;
  rewrite collect_missing_dict, hbind_lift_Ok; cbn [app];
  rewrite Hmiss; cbn [nonempty];
  rewrite (py_getitem_dict _ _ _ Hs), hbind_lift_Ok;
  rewrite (py_getitem_dict _ _ _ Ht), hbind_lift_Ok;
  rewrite Hes, Het, !hbind_lift_Ok; cbn [app nonempty].

(** The unit errors of both sides come in one message, those of the source
    first, before any identifier is looked at: the answer is the same
    whatever the identifiers and the method are. *)
Theorem submit_search_unit_errors (env : Env) (d src tgt : gmap string pyval)
    (source_errors target_errors : list string) (rnd : N) (q : jobqueue) :
  missing_of (requireds_iter env) d = [] ->
  d !! "source" = Some (PDict src) -> d !! "target" = Some (PDict tgt) ->
  _validate_units env (PDict src) "source" = Ok source_errors ->
  _validate_units env (PDict tgt) "target" = Ok target_errors ->
  source_errors ++ target_errors <> [] ->
  submit_search env (PDict d) rnd q
  = (Ok (error 400 (PDict d)
           (msg_unit_errors +:+
            String.concat (LF +:+ TAB) (source_errors ++ target_errors))),
     q).
Proof.
  intros Hmiss Hs Ht Hes Het Hne. unfold submit_search.
  rewrite collect_missing_dict, hbind_lift_Ok. cbn [app].
  rewrite Hmiss. cbn [nonempty].
  rewrite (py_getitem_dict _ _ _ Hs), hbind_lift_Ok.
  rewrite (py_getitem_dict _ _ _ Ht), hbind_lift_Ok.
  rewrite Hes, Het, !hbind_lift_Ok.
  by destruct (source_errors ++ target_errors).
Qed.

Lemma submit_search_unit_errors_witness :
  submit_search Demo.env (PDict Demo.sloppy) 9 Demo.empty_queue
  = (Ok (error 400 (PDict Demo.sloppy)
           (msg_unit_errors +:+
            String.concat (LF +:+ TAB)
              (["source has unrecognized units: word"] ++
               ["target is missing object_id."; "target is missing units."]))),
     Demo.empty_queue).
Proof.
  apply (submit_search_unit_errors Demo.env Demo.sloppy
           {[ "object_id" := PStr Demo.aeneid_id; "units" := PStr "word" ]}
           ∅);
    try (vm_compute; reflexivity).
  discriminate.
Defined.

(** ** [submit_search]: identifiers *)

(** An [object_id] that the identifier constructor refuses ends the request
    with [InvalidId], whatever the Store holds. *)
Theorem submit_search_invalid_id (env : Env) (d src tgt : gmap string pyval)
    (source_id target_id : string) (rnd : N) (q : jobqueue) :
  units_pass env d src tgt ->
  src !! "object_id" = Some (PStr source_id) ->
  tgt !! "object_id" = Some (PStr target_id) ->
  oid_parse env source_id = None \/ oid_parse env target_id = None ->
  submit_search env (PDict d) rnd q = (Raise InvalidId, q).
Proof.
  intros Hpass Hsid Htid Hbad. past_units Hpass.
  rewrite (py_getitem_dict _ _ _ Hsid), hbind_lift_Ok.
  rewrite (py_getitem_dict _ _ _ Htid), hbind_lift_Ok.
  cbn [ObjectId].
  destruct (oid_parse env source_id) as [so|]; [|reflexivity].
  rewrite hbind_lift_Ok.
  destruct Hbad as [?| ->]; [discriminate|reflexivity].
Qed.

Lemma submit_search_invalid_id_witness :
  submit_search Demo.env (PDict Demo.malformed) 4 Demo.full_queue
  = (Raise InvalidId, Demo.full_queue).
Proof.
  apply (submit_search_invalid_id Demo.env Demo.malformed
           {[ "object_id" := PStr "A"; "units" := PStr "line" ]}
           {[ "object_id" := PStr Demo.pharsalia_id;
              "units" := PStr "phrase" ]}
           "A" Demo.pharsalia_id).
  - repeat split; vm_compute; reflexivity.
  - reflexivity.
  - reflexivity.
  - left. reflexivity.
Defined.

(** An [object_id] of the source that is not a string is never reported
    in a 400.  A number, a boolean, an array or an object is refused by the
    identifier constructor; for [null] a new identifier is looked up and the
    message cannot be joined.  In both cases the request ends with
    [TypeError]. *)
Theorem submit_search_non_string_id (env : Env) (d src tgt : gmap string pyval)
    (id : pyval) (target_id : string) (rnd : N) (q : jobqueue) :
  units_pass env d src tgt ->
  src !! "object_id" = Some id -> is_PStr id = false ->
  tgt !! "object_id" = Some (PStr target_id) ->
  is_Some (oid_parse env target_id) ->
  submit_search env (PDict d) rnd q = (Raise TypeError, q).
Proof.
  intros Hpass Hsid Hnot Htid [to Hto]. past_units Hpass.
  rewrite (py_getitem_dict _ _ _ Hsid), hbind_lift_Ok.
  rewrite (py_getitem_dict _ _ _ Htid), hbind_lift_Ok.
  destruct id; try discriminate; try reflexivity.
  cbn [ObjectId]. rewrite Hto, !hbind_lift_Ok.
  cbn [results_has]. rewrite !hbind_lift_Ok.
  by destruct (bool_decide _).
Qed.

Lemma submit_search_non_string_id_witness :
  submit_search Demo.env (PDict Cases.null_id) 4 Demo.empty_queue
  = (Raise TypeError, Demo.empty_queue).
Proof.
  apply (submit_search_non_string_id Demo.env Cases.null_id
           {[ "object_id" := PNone; "units" := PStr "line" ]}
           {[ "object_id" := PStr Demo.pharsalia_id;
              "units" := PStr "phrase" ]}
           PNone Demo.pharsalia_id).
  - repeat split; vm_compute; reflexivity.
  - reflexivity.
  - reflexivity.
  - reflexivity.
  - vm_compute. by eexists.
Defined.

(** ** [submit_search]: every outcome *)

Lemma py_getitem_raises (v : pyval) (k : string) (e : exn) :
  py_getitem v k = Raise e -> e <> Full.
Proof.
  destruct v; cbn; try congruence. destruct (d !! k); congruence.
Qed.

Lemma validate_units_raises (env : Env) (specs : pyval) (name : string)
    (e : exn) :
  _validate_units env specs name = Raise e -> e <> Full.
Proof.
  unfold _validate_units.
  destruct (py_in "object_id" specs) as [b1|e1] eqn:H1; cbn [bind];
    [|intros [= <-]; apply py_in_raises in H1; congruence].
  destruct (py_in "units" specs) as [b2|e2] eqn:H2; cbn [bind];
    [|intros [= <-]; apply py_in_raises in H2; congruence].
  destruct b2; cbn [negb]; [|discriminate].
  destruct (py_getitem specs "units") as [u|e3] eqn:H3; cbn [bind].
  - by destruct (negb (is_str "line" u) && negb (is_str "phrase" u)).
  - intros [= <-]. by apply py_getitem_raises in H3.
Qed.

Lemma ObjectId_raises (env : Env) (v : pyval) (e : exn) :
  ObjectId env v = Raise e -> e <> Full.
Proof.
  destruct v; cbn; try congruence. destruct (oid_parse env s); congruence.
Qed.

Lemma results_has_raises (results : gmap string Text) (v : pyval) (e : exn) :
  results_has results v = Raise e -> e <> Full.
Proof. destruct v; cbn; congruence. Qed.

Lemma results_get_raises (results : gmap string Text) (v : pyval) (e : exn) :
  results_get results v = Raise e -> e <> Full.
Proof.
  destruct v; cbn; try congruence. destruct (results !! s); congruence.
Qed.

Lemma py_join_raises (sep : string) (items : list pyval) (e : exn) :
  py_join sep items = Raise e -> e <> Full.
Proof. unfold py_join. destruct (all_strs items); congruence. Qed.

Lemma method_requireds_get_raises (env : Env) (v : pyval) (e : exn) :
  method_requireds_get env v = Raise e -> e <> Full.
Proof.
  destruct v; cbn; try congruence.
  destruct (method_requireds env !! s); congruence.
Qed.

Ltac not_Full :=
  match goal with
  | H : py_in _ _ = Raise _ |- _ => apply py_in_raises in H; congruence
  | H : collect_missing _ _ _ = Raise _ |- _ =>
      apply collect_missing_raises in H; congruence
  | H : py_getitem _ _ = Raise _ |- _ => by apply py_getitem_raises in H
  | H : _validate_units _ _ _ = Raise _ |- _ =>
      by apply validate_units_raises in H
  | H : ObjectId _ _ = Raise _ |- _ => by apply ObjectId_raises in H
  | H : results_has _ _ = Raise _ |- _ => by apply results_has_raises in H
  | H : results_get _ _ = Raise _ |- _ => by apply results_get_raises in H
  | H : py_join _ _ = Raise _ |- _ => by apply py_join_raises in H
  | H : method_requireds_get _ _ = Raise _ |- _ =>
      by apply method_requireds_get_raises in H
  end.

Ltac outcome_step :=
  cbv beta zeta;
  lazymatch goal with
  | |- match hbind (lift ?m) _ _ with _ => _ end =>
      destruct m eqn:?;
      [rewrite hbind_lift_Ok
      | rewrite hbind_lift_Raise; split; [reflexivity|not_Full]]
  | |- match (if ?b then _ else _) _ with _ => _ end => destruct b eqn:?
  | |- match hret _ _ with _ => _ end => left; by eexists
  end.

(** All that can come out of the handler, on any payload. *)
Lemma submit_search_outcome (env : Env) (received : pyval) (rnd : N)
    (q : jobqueue) :
  match submit_search env received rnd q with
  | (Ok resp, q') =>
      (exists m, resp = error 400 received m /\ q' = q) \/
      (resp = created (uuid4_hex rnd) /\ queue_full q = false /\
       exists j, q' = push q j /\ job_results_id j = uuid4_hex rnd) \/
      (exists busy,
         apitess_error env = Some busy /\
         resp = busy 500%Z received msg_queue_full /\
         queue_full q = true /\ q' = q)
  | (Raise e, q') => q' = q /\ e <> Full
  end.
Proof.
  unfold submit_search.
  repeat outcome_step.
  cbv [try_except_Full hbind lift hret].
  repeat match goal with
  | |- context [py_getitem ?v ?k] => destruct (py_getitem v k) eqn:?
  end;
  try match goal with
  | e : exn |- _ => destruct e; try (split; [reflexivity|discriminate]);
      exfalso; not_Full
  end.
  unfold queue_search. destruct (queue_full q) eqn:Hfull.
  - destruct (apitess_error env) as [busy|] eqn:Hbusy.
    + right. right. by exists busy.
    + split; [reflexivity|discriminate].
  - right. left. split; [reflexivity|]. split; [reflexivity|].
    by eexists.
Qed.

(** Every response of the handler is one of three: a 400 that echoes the
    payload, with the queue as it was; the 201 of a job just put on the
    queue, whose identifier is the one in the location; or, where
    [apitess.error] is bound at all, what it makes of a full queue. *)
Theorem submit_search_responses (env : Env) (received : pyval) (rnd : N)
    (q q' : jobqueue) (resp : response) :
  submit_search env received rnd q = (Ok resp, q') ->
  (exists m, resp = error 400 received m /\ q' = q) \/
  (resp = created (uuid4_hex rnd) /\ queue_full q = false /\
   exists j, q' = push q j /\ job_results_id j = uuid4_hex rnd) \/
  (exists busy,
     apitess_error env = Some busy /\
     resp = busy 500%Z received msg_queue_full /\
     queue_full q = true /\ q' = q).
Proof.
  intros H. pose proof (submit_search_outcome env received rnd q) as Hout.
  by rewrite H in Hout.
Qed.

Lemma submit_search_responses_witness :
  exists resp q',
    submit_search Demo.env (PDict Demo.mixed) 0 Demo.empty_queue
    = (Ok resp, q') /\
    ((exists m, resp = error 400 (PDict Demo.mixed) m /\ q' = Demo.empty_queue)
     \/
     (resp = created (uuid4_hex 0) /\ queue_full Demo.empty_queue = false /\
      exists j,
        q' = push Demo.empty_queue j /\ job_results_id j = uuid4_hex 0) \/
     (exists busy,
        apitess_error Demo.env = Some busy /\
        resp = busy 500%Z (PDict Demo.mixed) msg_queue_full /\
        queue_full Demo.empty_queue = true /\ q' = Demo.empty_queue)).
Proof.
  eexists _, _. split; [vm_compute; reflexivity|].
  apply (submit_search_responses Demo.env (PDict Demo.mixed) 0
           Demo.empty_queue).
  vm_compute. reflexivity.
Defined.

(** [queue.Full] never leaves the handler, and whatever does leave it
    leaves the queue as it was. *)
Theorem submit_search_raises (env : Env) (received : pyval) (rnd : N)
    (q q' : jobqueue) (e : exn) :
  submit_search env received rnd q = (Raise e, q') -> e <> Full /\ q' = q.
Proof.
  intros H. pose proof (submit_search_outcome env received rnd q) as Hout.
  rewrite H in Hout. tauto.
Qed.

Lemma submit_search_raises_witness :
  exists e q',
    submit_search Demo.env (PDict Demo.good) 1 Demo.full_queue
    = (Raise e, q') /\
    e <> Full /\ q' = Demo.full_queue.
Proof.
  eexists _, _. split; [vm_compute; reflexivity|].
  apply (submit_search_raises Demo.env (PDict Demo.good) 1 Demo.full_queue).
  vm_compute. reflexivity.
Defined.

(** ** The documents found *)

Lemma index_texts_snoc (found : list Text) (t : Text) :
  index_texts (found ++ [t]) = <[oid_str (text_id t) := t]> (index_texts found).
Proof. unfold index_texts. by rewrite foldl_snoc. Qed.

(** The dictionary built from the documents the Store returns has exactly
    their identifiers, as text, for keys, and under each key a document
    that has it. *)
Theorem index_texts_lookup (found : list Text) :
  (forall k t,
     index_texts found !! k = Some t ->
     t ∈ found /\ oid_str (text_id t) = k) /\
  (forall t, t ∈ found -> is_Some (index_texts found !! oid_str (text_id t))).
Proof.
  induction found as [|t0 found [IH1 IH2]] using rev_ind.
  - split; [intros k t; unfold index_texts; cbn [foldl];
             by rewrite lookup_empty|].
    intros t Ht. by apply not_elem_of_nil in Ht.
  - split.
    + intros k t. rewrite index_texts_snoc, elem_of_app.
      destruct (decide (oid_str (text_id t0) = k)) as [<-|Hne].
      * rewrite lookup_insert_eq. intros [= <-]. split; [|done].
        right. by apply list_elem_of_singleton.
      * rewrite lookup_insert_ne by done. intros H.
        apply IH1 in H as [? ?]. auto.
    + intros t. rewrite index_texts_snoc, elem_of_app.
      destruct (decide (oid_str (text_id t0) = oid_str (text_id t)))
        as [Heq|Hne].
      * rewrite Heq, lookup_insert_eq. by eexists.
      * rewrite lookup_insert_ne by done. intros [Ht|Ht]; [by apply IH2|].
        apply list_elem_of_singleton in Ht. congruence.
Qed.

Lemma hex_digit_lower (n : N) : lower_hex_char (hex_digit n) = true.
Proof.
  unfold hex_digit. destruct n as [|p]; [done|].
  do 4 (try destruct p as [p|p|]); done.
Qed.

Lemma hex_digits_lower (digits : nat) (x : N) (acc : string) :
  lower_hex acc = true -> lower_hex (hex_digits digits x acc) = true.
Proof.
  revert x acc. induction digits as [|n IH]; intros x acc Hacc; [done|].
  cbn [hex_digits]. apply IH. cbn [lower_hex].
  by rewrite hex_digit_lower.
Qed.

Lemma hex_digits_length (digits : nat) (x : N) (acc : string) :
  String.length (hex_digits digits x acc) = digits + String.length acc.
Proof.
  revert x acc. induction digits as [|n IH]; intros x acc; [done|].
  cbn [hex_digits]. rewrite IH. cbn [String.length]. lia.
Qed.

(** A key of the dictionary is written in digits and small letters. *)
Lemma index_texts_lower (found : list Text) (k : string) :
  lower_hex k = false -> index_texts found !! k = None.
Proof.
  intros Hk. destruct (index_texts found !! k) as [t|] eqn:Ht; [|done].
  apply index_texts_lookup in Ht as [_ <-].
  unfold oid_str in Hk. by rewrite hex_digits_lower in Hk.
Qed.

(** Identifiers are compared as text with what [str] makes of the
    identifiers found, which is in small letters: an identifier written
    otherwise (in capitals, say) is reported as not found although the
    constructor accepts it, whatever the Store returns. *)
Theorem submit_search_noncanonical_id (env : Env)
    (d src tgt : gmap string pyval) (source_id target_id id : string)
    (rnd : N) (q : jobqueue) :
  units_pass env d src tgt ->
  src !! "object_id" = Some (PStr source_id) ->
  tgt !! "object_id" = Some (PStr target_id) ->
  is_Some (oid_parse env source_id) -> is_Some (oid_parse env target_id) ->
  id ∈ [source_id; target_id] -> lower_hex id = false ->
  exists ids,
    submit_search env (PDict d) rnd q
    = (Ok (error 400 (PDict d)
             (msg_unknown_ids +:+ String.concat (LF +:+ TAB) ids)), q) /\
    id ∈ ids.
Proof.
  intros Hpass Hsid Htid [so Hso] [to Hto] Hid Hlow. past_units Hpass.
  rewrite (py_getitem_dict _ _ _ Hsid), hbind_lift_Ok.
  rewrite (py_getitem_dict _ _ _ Htid), hbind_lift_Ok.
  cbn [ObjectId]. rewrite Hso, Hto, !hbind_lift_Ok.
  set (results := index_texts (find_texts env [so; to])).
  cbn [results_has]. rewrite !hbind_lift_Ok.
  pose proof (index_texts_lower (find_texts env [so; to]) id Hlow) as Hnone.
  fold results in Hnone.
  apply elem_of_cons in Hid as [->|Hid];
    [|apply list_elem_of_singleton in Hid as ->];
    rewrite Hnone, bool_decide_is_Some_None.
  - destruct (bool_decide (is_Some (results !! target_id)));
      cbn [app nonempty py_join all_strs]; rewrite hbind_lift_Ok;
      eexists; (split; [reflexivity|]); set_solver.
  - destruct (bool_decide (is_Some (results !! source_id)));
      cbn [app nonempty py_join all_strs]; rewrite hbind_lift_Ok;
      eexists; (split; [reflexivity|]); set_solver.
Qed.

Lemma submit_search_noncanonical_id_witness :
  exists ids,
    submit_search Demo.env (PDict Cases.capitals) 8 Demo.empty_queue
    = (Ok (error 400 (PDict Cases.capitals)
             (msg_unknown_ids +:+ String.concat (LF +:+ TAB) ids)),
       Demo.empty_queue) /\
    "5C6C69F042FACF59122418F6" ∈ ids.
Proof.
  apply (submit_search_noncanonical_id Demo.env Cases.capitals
           {[ "object_id" := PStr "5C6C69F042FACF59122418F6";
              "units" := PStr "line" ]}
           {[ "object_id" := PStr Demo.pharsalia_id;
              "units" := PStr "phrase" ]}
           "5C6C69F042FACF59122418F6" Demo.pharsalia_id).
  - repeat split; vm_compute; reflexivity.
  - reflexivity.
  - reflexivity.
  - vm_compute. by eexists.
  - vm_compute. by eexists.
  - set_solver.
  - reflexivity.
Defined.

(** ** [submit_search]: accepted payloads *)

(** What an accepted payload is made of. *)
Lemma accepted_inv (env : Env) (d : gmap string pyval) :
  env_wf env = true -> well_formed env d = true ->
  staged_validate env d = Accept ->
  exists src tgt m source_id target_id so to source_text target_text,
    d !! "source" = Some (PDict src) /\
    d !! "target" = Some (PDict tgt) /\
    d !! "method" = Some (PDict m) /\
    src !! "object_id" = Some (PStr source_id) /\
    tgt !! "object_id" = Some (PStr target_id) /\
    is_Some (src !! "units") /\
    oid_parse env source_id = Some so /\
    oid_parse env target_id = Some to /\
    index_texts (find_texts env [so; to]) !! source_id = Some source_text /\
    index_texts (find_texts env [so; to]) !! target_id = Some target_text /\
    m !! "name" = Some (PStr "original") /\
    forall k, k ∈ original_requireds -> is_Some (m !! k).
Proof.
  intros Hwf Hd. unfold staged_validate.
  destruct (missing_of (requireds_iter env) d) as [|k0 ks] eqn:Hmiss;
    [|discriminate].
  cbn [nonempty].
  assert (forall k, k ∈ requireds -> is_Some (d !! k)) as Hreq.
  { intros k Hk. eapply missing_of_nil; [done|]. by apply env_wf_requireds. }
  unfold well_formed in Hd.
  apply andb_true_iff in Hd as [Hd Htid].
  apply andb_true_iff in Hd as [Hd Hsid].
  apply andb_true_iff in Hd as [Hd Hm].
  apply andb_true_iff in Hd as [Hs Ht].
  apply dict_or_absent_some in Hs as [src Hs];
    [|apply Hreq; unfold requireds; set_solver].
  apply dict_or_absent_some in Ht as [tgt Ht];
    [|apply Hreq; unfold requireds; set_solver].
  apply dict_or_absent_some in Hm as [m Hm];
    [|apply Hreq; unfold requireds; set_solver].
  rewrite Hs, Ht, Hm in *. cbn [as_dict] in *.
  destruct (unit_errors env src "source" ++ unit_errors env tgt "target")
    as [|e0 es] eqn:Herr; [|discriminate].
  cbn [nonempty].
  apply app_eq_nil in Herr as [Herr_s Herr_t].
  apply unit_errors_nil in Herr_s as (sid0 & su & Hsid0 & Hsu & _).
  apply unit_errors_nil in Herr_t as (tid0 & tu & Htid0 & _ & _).
  destruct (id_well_formed_str _ _ _ Hsid Hsid0) as (sid & so & -> & Hso).
  destruct (id_well_formed_str _ _ _ Htid Htid0) as (tid & to & -> & Hto).
  rewrite Hsid0, Htid0. cbn [as_str].
  unfold unresolved, lookup_texts. rewrite Hso, Hto.
  set (results := index_texts (find_texts env [so; to])).
  rewrite !filter_cons, filter_nil.
  destruct (results !! sid) as [source_text|] eqn:Ers;
    destruct (results !! tid) as [target_text|] eqn:Ert;
    repeat case_decide; try congruence; try discriminate.
  cbn [nonempty].
  destruct (m !! "name") as [name|] eqn:Hname; [|discriminate].
  destruct (method_requireds_get env name) as [keys|e] eqn:Hkeys;
    [|discriminate].
  destruct (missing_of keys m) as [|k1 ks1] eqn:Hmiss_m; [|discriminate].
  intros _. apply method_requireds_get_Ok in Hkeys as [-> ->].
  exists src, tgt, m, sid, tid, so, to, source_text, target_text.
  repeat split; try done; try by eexists.
  intros k Hk. eapply missing_of_nil; [done|]. by apply env_wf_original.
Qed.



Lemma queue_full_room (q : jobqueue) (n : nat) :
  maxsize q = 0 \/ length (items q) + n < maxsize q ->
  queue_full q = false.
Proof.
  unfold queue_full. intros [->|H]; [done|].
  apply andb_false_iff. right. apply Nat.leb_gt. lia.
Qed.

(** Two accepted requests in a row, with room for both: the two jobs are
    at the end of the queue in the order of the requests, behind what was
    there, each under the identifier its own response names. *)
Theorem submit_search_twice (env : Env) (d1 d2 : gmap string pyval)
    (rnd1 rnd2 : N) (q : jobqueue) :
  env_wf env = true ->
  well_formed env d1 = true -> staged_validate env d1 = Accept ->
  well_formed env d2 = true -> staged_validate env d2 = Accept ->
  maxsize q = 0 \/ length (items q) + 1 < maxsize q ->
  exists j1 j2 q1 q2,
    submit_search env (PDict d1) rnd1 q = (Ok (created (uuid4_hex rnd1)), q1) /\
    submit_search env (PDict d2) rnd2 q1
    = (Ok (created (uuid4_hex rnd2)), q2) /\
    items q2 = items q ++ [j1; j2] /\ maxsize q2 = maxsize q /\
    job_results_id j1 = uuid4_hex rnd1 /\ job_results_id j2 = uuid4_hex rnd2.
Proof.
  intros Hwf Hd1 Hv1 Hd2 Hv2 Hroom.
  pose proof (queue_full_room q 1 Hroom) as Hfull.
  eexists _, _, _, _. split; [|split].
  - rewrite submit_search_staged_correct by done.
    unfold submit_search_staged, enqueue_job. rewrite Hv1, Hfull.
    reflexivity.
  - rewrite submit_search_staged_correct by done.
    unfold submit_search_staged, enqueue_job. rewrite Hv2.
    rewrite queue_full_room with (n := 0); [reflexivity|].
    cbn [push maxsize items]. rewrite length_app. cbn [length].
    destruct Hroom; [by left|right; lia].
  - cbn [push maxsize items job_results_id]. rewrite <- app_assoc.
    repeat split.
Qed.

Lemma submit_search_twice_witness :
  exists j1 j2 q1 q2,
    submit_search Demo.env (PDict Demo.good) 1 Demo.empty_queue
    = (Ok (created (uuid4_hex 1)), q1) /\
    submit_search Demo.env (PDict Cases.reversed) 2 q1
    = (Ok (created (uuid4_hex 2)), q2) /\
    items q2 = items Demo.empty_queue ++ [j1; j2] /\
    maxsize q2 = maxsize Demo.empty_queue /\
    job_results_id j1 = uuid4_hex 1 /\ job_results_id j2 = uuid4_hex 2.
Proof.
  apply (submit_search_twice Demo.env Demo.good Cases.reversed 1 2
           Demo.empty_queue);
    try (vm_compute; reflexivity).
  right. cbn. lia.
Defined.

(** On a well-formed payload the handler raises in two cases only: the
    subscript of the method table fails on the method's name, or the queue
    is at capacity and there is no [apitess.error] to call. *)
Theorem submit_search_faults (env : Env) (d : gmap string pyval) (rnd : N)
    (q q' : jobqueue) (e : exn) :
  env_wf env = true -> well_formed env d = true ->
  submit_search env (PDict d) rnd q = (Raise e, q') ->
  (exists name,
     staged_validate env d = Unregistered name /\
     method_requireds_get env name = Raise e) \/
  (e = AttributeError "error" /\ staged_validate env d = Accept /\
   queue_full q = true /\ apitess_error env = None).
Proof.
  intros Hwf Hd. rewrite submit_search_staged_correct by done.
  unfold submit_search_staged, enqueue_job.
  destruct (staged_validate env d) as [m|name|] eqn:Hv; [discriminate| |].
  - destruct (method_requireds_get env name) as [keys|e'] eqn:Hget.
    + exfalso. revert Hv. unfold staged_validate.
      repeat match goal with
      | |- context [if ?b then _ else _] => destruct b; try discriminate
      end.
      destruct (_ !! "name") as [name'|]; [|discriminate].
      destruct (method_requireds_get env name') as [keys'|] eqn:Hget';
        [by destruct (nonempty _)|].
      intros [= ->]. congruence.
    + intros [= <- <-]. left. by exists name.
  - destruct (queue_full q); [|discriminate].
    destruct (apitess_error env); [discriminate|].
    intros [= <- <-]. by right.
Qed.

Lemma submit_search_faults_witness :
  exists e q',
    submit_search Demo.env (PDict Demo.fancy) 0 Demo.empty_queue
    = (Raise e, q') /\
    ((exists name,
        staged_validate Demo.env Demo.fancy = Unregistered name /\
        method_requireds_get Demo.env name = Raise e) \/
     (e = AttributeError "error" /\
      staged_validate Demo.env Demo.fancy = Accept /\
      queue_full Demo.empty_queue = true /\ apitess_error Demo.env = None)).
Proof.
  eexists _, _. split; [vm_compute; reflexivity|].
  apply (submit_search_faults Demo.env Demo.fancy 0 Demo.empty_queue
           Demo.empty_queue);
    vm_compute; reflexivity.
Defined.

(** ** Job identifiers *)

(** The location of a new job is [/parallels/], thirty-two digits and
    small letters from [a] to [f], and a final [/]. *)
Theorem created_location_shape (rnd : N) :
  exists id,
    headers (created (uuid4_hex rnd))
    = [("Location", "/parallels/" +:+ id +:+ "/")] /\
    String.length id = 32 /\ lower_hex id = true.
Proof.
  exists (uuid4_hex rnd). split; [|split].
  - unfold created. cbn [headers]. by rewrite location_of_uuid.
  - unfold uuid4_hex. by rewrite hex_digits_length.
  - unfold uuid4_hex. by apply hex_digits_lower.
Qed.

Lemma hex_digit_inj (a b : N) :
  (a < 16)%N -> (b < 16)%N -> hex_digit a = hex_digit b -> a = b.
Proof.
  intros Ha Hb H.
  assert (forall n, (n < 16)%N -> Demo.hex_value (hex_digit n) = Some n)
    as Hinv.
  { intros n Hn. destruct n as [|p]; [done|].
    do 4 (try destruct p as [p|p|]); try done; lia. }
  apply Hinv in Ha, Hb. congruence.
Qed.

Lemma hex_digits_inj (digits : nat) (x y : N) (acc acc' : string) :
  hex_digits digits x acc = hex_digits digits y acc' ->
  String.length acc = String.length acc' ->
  (x mod 16 ^ N.of_nat digits = y mod 16 ^ N.of_nat digits)%N /\ acc = acc'.
Proof.
  revert x y acc acc'.
  induction digits as [|n IH]; intros x y acc acc' Heq Hlen.
  - cbn in Heq. by rewrite !N.mod_1_r.
  - cbn [hex_digits] in Heq. apply IH in Heq as [Hhigh Hacc];
      [|cbn [String.length]; lia].
    injection Hacc as Hdigit ->. split; [|done].
    apply hex_digit_inj in Hdigit; [|by apply N.mod_lt..].
    rewrite Nat2N.inj_succ, N.pow_succ_r'.
    rewrite !N.Div0.mod_mul_r. by rewrite Hdigit, Hhigh.
Qed.

Lemma lor_lt_128 (a b : N) :
  (a < 2 ^ 128)%N -> (b < 2 ^ 128)%N -> (N.lor a b < 2 ^ 128)%N.
Proof.
  intros Ha Hb.
  assert (forall c, (c < 2 ^ 128)%N -> (N.log2 c < 128)%N) as Hlog.
  { intros c Hc. destruct (N.eq_dec c 0%N) as [->|Hne]; [done|].
    apply N.log2_lt_pow2; [lia|done]. }
  destruct (N.eq_dec (N.lor a b) 0%N) as [->|Hne]; [done|].
  apply N.log2_lt_pow2; [lia|].
  rewrite N.log2_lor. apply N.max_lub_lt; by apply Hlog.
Qed.

Lemma uuid4_int_bound (rnd : N) : (uuid4_int rnd < 2 ^ 128)%N.
Proof.
  unfold uuid4_int.
  assert (rnd mod 2 ^ 128 < 2 ^ 128)%N as H0 by by apply N.mod_lt.
  apply lor_lt_128; [|done].
  eapply N.le_lt_trans; [apply N.ldiff_le_l|].
  apply lor_lt_128; [|done].
  eapply N.le_lt_trans; [apply N.ldiff_le_l|]. done.
Qed.

(** The identifier is the whole of the UUID: two requests are given the
    same identifier only when their UUIDs are the same number. *)
Theorem uuid4_hex_inj (rnd1 rnd2 : N) :
  uuid4_hex rnd1 = uuid4_hex rnd2 <-> uuid4_int rnd1 = uuid4_int rnd2.
Proof.
  split; [|unfold uuid4_hex; by intros ->].
  unfold uuid4_hex. intros H.
  apply hex_digits_inj in H as [H _]; [|done].
  change (16 ^ N.of_nat 32)%N with (2 ^ 128)%N in H.
  by rewrite !N.mod_small in H by apply uuid4_int_bound.
Qed.

(** The comment at line 114 asks for the final separator: joining with an
    empty last component gives it for any identifier whatever. *)
Theorem created_location_ends_with_slash (results_id : string) :
  exists location,
    headers (created results_id) = [("Location", location)] /\
    ends_with_slash location = true.
Proof.
  eexists. split; [reflexivity|].
  cbn [os_path_join]. replace (starts_with "/" "") with false by done.
  set (path := if starts_with "/" results_id then results_id else _).
  destruct (bool_decide (path = "") || ends_with_slash path) eqn:Hcase.
  - apply orb_true_iff in Hcase as [Hempty|Hends].
    + apply bool_decide_eq_true in Hempty. exfalso. revert Hempty.
      unfold path, url_prefix.
      destruct results_id as [|c s]; [done|].
      destruct (starts_with "/" (String c s)); [discriminate|].
      intros H. cbv in H. discriminate.
    + assert (path +:+ "" = path) as ->; [|done].
      clear. induction path as [|c p IH]; [done|].
      change (String c p +:+ "") with (String c (p +:+ "")).
      by rewrite IH.
  - change (path +:+ "/" +:+ "") with (path +:+ String "/" "").
    by rewrite ends_with_slash_snoc.
Qed.

(** ** Keys nobody asked for *)

Lemma missing_of_insert_other (keys : list string) (d : gmap string pyval)
    (k : string) (v : pyval) :
  k ∉ keys -> missing_of keys (<[k := v]> d) = missing_of keys d.
Proof.
  unfold missing_of. induction keys as [|x keys IH]; intros Hk; [done|].
  apply not_elem_of_cons in Hk as [Hne Hk].
  rewrite !filter_cons, IH by done.
  by rewrite lookup_insert_ne.
Qed.

Lemma env_wf_requireds_iter (env : Env) (k : string) :
  env_wf env = true -> k ∉ requireds -> k ∉ requireds_iter env.
Proof.
  unfold env_wf. intros [H _]%andb_true_iff Hk.
  apply bool_decide_eq_true in H. by rewrite H.
Qed.

Lemma env_wf_original_iter (env : Env) (k : string) :
  env_wf env = true -> k ∉ original_requireds -> k ∉ original_iter env.
Proof.
  unfold env_wf. intros [_ H]%andb_true_iff Hk.
  apply bool_decide_eq_true in H. by rewrite H.
Qed.

(** A member of the payload other than [source], [target] and [method]
    is not looked at: with it or without it an accepted payload gives the
    same response and the same job. *)
Theorem submit_search_ignores_other_keys (env : Env) (d : gmap string pyval)
    (k : string) (v : pyval) (rnd : N) (q : jobqueue) :
  env_wf env = true -> well_formed env d = true ->
  staged_validate env d = Accept -> queue_full q = false ->
  k ∉ requireds ->
  submit_search env (PDict (<[k := v]> d)) rnd q
  = submit_search env (PDict d) rnd q.
Proof.
  intros Hwf Hd Hv Hfull Hk.
  assert (k <> "source" /\ k <> "target" /\ k <> "method") as (Hs & Ht & Hm).
  { unfold requireds in Hk. rewrite !not_elem_of_cons in Hk. tauto. }
  assert (staged_validate env (<[k := v]> d) = staged_validate env d) as Hv'.
  { unfold staged_validate.
    rewrite missing_of_insert_other by by apply env_wf_requireds_iter.
    by rewrite !lookup_insert_ne. }
  assert (well_formed env (<[k := v]> d) = well_formed env d) as Hd'.
  { unfold well_formed. by rewrite !lookup_insert_ne. }
  assert (descriptor env (<[k := v]> d) = descriptor env d) as Hdesc.
  { unfold descriptor. by rewrite !lookup_insert_ne. }
  rewrite !submit_search_staged_correct by congruence.
  unfold submit_search_staged, enqueue_job.
  rewrite Hv', Hv, Hfull, Hdesc. by rewrite lookup_insert_ne.
Qed.

Lemma submit_search_ignores_other_keys_witness :
  submit_search Demo.env (PDict (<["comment" := PStr "first run"]> Demo.good))
    6 Demo.empty_queue
  = submit_search Demo.env (PDict Demo.good) 6 Demo.empty_queue.
Proof.
  apply (submit_search_ignores_other_keys Demo.env Demo.good "comment"
           (PStr "first run") 6 Demo.empty_queue);
    try (vm_compute; reflexivity).
  unfold requireds. rewrite !not_elem_of_cons.
  repeat split; try discriminate. apply not_elem_of_nil.
Defined.

(** A member of the method other than the six the table names is
    accepted and dropped: it changes neither the response nor the job. *)
Theorem submit_search_drops_method_keys (env : Env) (d : gmap string pyval)
    (k : string) (v : pyval) (rnd : N) (q : jobqueue) :
  env_wf env = true -> well_formed env d = true ->
  staged_validate env d = Accept -> queue_full q = false ->
  k ∉ original_requireds ->
  submit_search env (PDict (with_method_key k v d)) rnd q
  = submit_search env (PDict d) rnd q.
Proof.
  intros Hwf Hd Hv Hfull Hk.
  destruct (accepted_inv env d Hwf Hd Hv)
    as (src & tgt & m & sid & tid & so & to & ts & tt & Hs & Ht & Hm & _
        & _ & _ & _ & _ & _ & _ & Hname & _).
  assert (forall k', k' ∈ original_requireds ->
            <[k := v]> m !! k' = m !! k') as Hsame.
  { intros k' Hk'. apply lookup_insert_ne. congruence. }
  assert (with_method_key k v d !! "source" = d !! "source") as Es
    by (unfold with_method_key; by rewrite lookup_insert_ne).
  assert (with_method_key k v d !! "target" = d !! "target") as Et
    by (unfold with_method_key; by rewrite lookup_insert_ne).
  assert (with_method_key k v d !! "method" = Some (PDict (<[k := v]> m)))
    as Em by (unfold with_method_key; by rewrite lookup_insert_eq, Hm).
  assert (missing_of (requireds_iter env) (with_method_key k v d)
          = missing_of (requireds_iter env) d) as Emiss.
  { unfold with_method_key. apply missing_of_insert_present.
    by rewrite Hm. }
  assert (staged_validate env (with_method_key k v d)
          = staged_validate env d) as Hv'.
  { unfold staged_validate. rewrite Emiss, Es, Et, Em, Hm. cbn [as_dict].
    rewrite (Hsame "name") by (unfold original_requireds; set_solver).
    rewrite Hname. cbn [method_requireds_get]. unfold method_requireds.
    rewrite lookup_singleton_eq.
    by rewrite missing_of_insert_other by by apply env_wf_original_iter. }
  assert (well_formed env (with_method_key k v d) = well_formed env d)
    as Hd'.
  { unfold well_formed. by rewrite Es, Et, Em, Hm. }
  assert (descriptor env (with_method_key k v d) = descriptor env d) as Hdesc.
  { unfold descriptor. rewrite Es, Et, Em, Hm. cbn [as_dict].
    by rewrite !Hsame by (unfold original_requireds; set_solver). }
  rewrite !submit_search_staged_correct by congruence.
  unfold submit_search_staged, enqueue_job.
  rewrite Hv', Hv, Hfull, Hdesc, Em, Hm. cbn [as_dict].
  by rewrite (Hsame "name") by (unfold original_requireds; set_solver).
Qed.

Lemma submit_search_drops_method_keys_witness :
  submit_search Demo.env
    (PDict (with_method_key "score_basis" (PStr "stem") Demo.good)) 6
    Demo.empty_queue
  = submit_search Demo.env (PDict Demo.good) 6 Demo.empty_queue.
Proof.
  apply (submit_search_drops_method_keys Demo.env Demo.good "score_basis"
           (PStr "stem") 6 Demo.empty_queue);
    try (vm_compute; reflexivity).
  unfold original_requireds. rewrite !not_elem_of_cons.
  repeat split; try discriminate. apply not_elem_of_nil.
Defined.

(** ** Status and results together *)

(** The two read handlers look the job up in the same way: [retrieve_results]
    says that it could not find the identifier exactly when
    [retrieve_status] says so. *)
Theorem retrieve_results_unknown_iff_status (env : Env) (results_id : string) :
  retrieve_results env results_id
  = Ok (not_found "Could not find results_id") <->
  retrieve_status env results_id
  = Ok (not_found "Could not find results_id").
Proof.
  unfold retrieve_results, retrieve_status.
  destruct (find_status env results_id) as [|st rest]; [done|].
  split; [|discriminate].
  by destruct (find_match_sets env _).
Qed.

(** Results are returned only from a MatchSet that was found: a 200 means
    that the status record exists, that the Store has a MatchSet under its
    [match_set_id], and the body is made from that MatchSet and from the
    matches filed under the identifier of the MatchSet itself. *)
Theorem retrieve_results_found_only_if (env : Env) (results_id : string)
    (resp : response) :
  retrieve_results env results_id = Ok resp -> status_code resp = 200%Z ->
  exists st rest ms others,
    find_status env results_id = st :: rest /\
    find_match_sets env (ObjectId_of_ref env (rs_match_set_id st))
    = ms :: others /\
    header "Content-Encoding" resp = Some "gzip" /\
    data resp
    = BodyBytes
        (gzip_compress env
           (str_encode env
              (json_dumps env
                 (PDict {[ "data" := ms_parameters ms;
                           "parallels" :=
                             PList (map (json_encode env)
                                      (find_matches env (ms_id ms))) ]})))).
Proof.
  unfold retrieve_results.
  destruct (find_status env results_id) as [|st rest]; [by intros [= <-]|].
  destruct (find_match_sets env _) as [|ms others] eqn:Hms;
    [by intros [= <-]|].
  intros [= <-] _. by exists st, rest, ms, others.
Qed.

Lemma retrieve_results_found_only_if_witness :
  exists resp st rest ms others,
    retrieve_results Demo.env "job-done" = Ok resp /\
    find_status Demo.env "job-done" = st :: rest /\
    find_match_sets Demo.env (ObjectId_of_ref Demo.env (rs_match_set_id st))
    = ms :: others /\
    header "Content-Encoding" resp = Some "gzip".
Proof.
  destruct (retrieve_results Demo.env "job-done") as [resp|] eqn:Hr;
    [|discriminate Hr].
  destruct (retrieve_results_found_only_if Demo.env "job-done" resp Hr)
    as (st & rest & ms & others & Hst & Hms & Hh & _).
  - vm_compute in Hr. injection Hr as <-. reflexivity.
  - exists resp, st, rest, ms, others. auto.
Defined.
